(** * pkg/securityscan/controller.go: construction and start-up of the CIS
      scan controller

    A shallow embedding of [NewController], [Controller.Start],
    [Controller.registerCRD], [detectClusterProvider],
    [detectKubernetesVersion] and [initializeMetrics].

    The Go code is a sequence of calls into other packages, each followed by
    an [if err != nil] early return.  It is embedded as a computation over
    the process state (the default Prometheus registry and the metric
    samples) that also yields the list of calls it made, in order.  What the
    other packages answer is taken from a [World] record, one field per call
    site, so that every outcome of every call is covered. *)

From Stdlib Require Import ZArith Lia.
From stdpp Require Import base option list strings gmap.

Open Scope string_scope.
Open Scope Z_scope.

(** ** Go values *)

(** A Go [error] is represented by its message ([err.Error()]); [nil] is
    [None] of [option error]. *)
Definition error := string.

(** The pair [(v, err)] answered by a constructor of another package. *)
Inductive result (A : Type) : Type :=
| Ok (v : A)
| Err (e : error).
Arguments Ok {A} v.
Arguments Err {A} e.

(** Values of other packages, opaque to this one. *)
Record rest_Config := { Host : string }.
Record kubernetes_Clientset := { kcs_cfg : rest_Config }.
Record kubeapiext_Clientset := { xcs_cfg : rest_Config }.
Record apply_Apply := { apply_cfg : rest_Config }.
Record cisoperatorctl_Factory := { cis_cfg : rest_Config }.
Record batchctl_Factory := { batch_cfg : rest_Config }.
Record corectl_Factory := { core_cfg : rest_Config }.
Record MonitoringV1Interface := { monitoring_cfg : rest_Config }.
Record ScanImageConfig := { SecurityScanImage : string }.
Record version_Info := { GitVersion : string }.
Record crd_CRD := { GVK_Kind : string }.

(** [sync.Mutex]; its zero value is unlocked. *)
Record sync_Mutex := { locked : bool }.

(** ** github.com/prometheus/client_golang/prometheus *)
Module prometheus.

Record GaugeOpts := { gName : string; gHelp : string }.
Record CounterOpts := { cName : string; cHelp : string }.

Record Desc := {
  fqName : string;
  help : string;
  variableLabels : list string
}.

Record GaugeVec := { gaugeDesc : Desc }.
Record CounterVec := { counterDesc : Desc }.

Definition NewGaugeVec (opts : GaugeOpts) (labelNames : list string) : GaugeVec :=
  {| gaugeDesc := {| fqName := gName opts; help := gHelp opts;
                     variableLabels := labelNames |} |}.

Definition NewCounterVec (opts : CounterOpts) (labelNames : list string) : CounterVec :=
  {| counterDesc := {| fqName := cName opts; help := cHelp opts;
                       variableLabels := labelNames |} |}.

(** The [Collector] interface, restricted to the two implementations this
    package registers. *)
Inductive Collector :=
| OfGauge (g : GaugeVec)
| OfCounter (c : CounterVec).

Definition describe (c : Collector) : Desc :=
  match c with
  | OfGauge g => gaugeDesc g
  | OfCounter c => counterDesc c
  end.

#[export] Instance Desc_eq_dec : EqDecision Desc.
Proof. solve_decision. Defined.
#[export] Instance GaugeVec_eq_dec : EqDecision GaugeVec.
Proof. solve_decision. Defined.
#[export] Instance CounterVec_eq_dec : EqDecision CounterVec.
Proof. solve_decision. Defined.
#[export] Instance Collector_eq_dec : EqDecision Collector.
Proof. solve_decision. Defined.

(** [AlreadyRegisteredError.Error()]. *)
Definition AlreadyRegisteredError : error :=
  "duplicate metrics collector registration attempted".

(** Two descriptors of one name have the same dimensions when their help
    strings are equal and their label names are the same up to order: the
    library compares a hash of the help string and of the sorted label
    names. *)
Definition same_dimensions (d' d : Desc) : Prop :=
  help d' = help d /\ variableLabels d' ≡ₚ variableLabels d.

#[export] Instance same_dimensions_dec d' d : Decision (same_dimensions d' d).
Proof. unfold same_dimensions. apply _. Defined.

(** [Registry.Register] on a registry of vectors, each with one descriptor
    and no constant labels, indexed by fully-qualified name.  A free name is
    admitted.  Under a taken name, a collector of the same dimensions is
    refused as already registered; one of other dimensions is refused with
    a message that prints its descriptor: that message is not modelled, it
    is what [refusal] gives for the descriptor held and the one refused.
    (The library has one more refusal, for a descriptor held by a collector
    of several descriptors; it cannot arise among vectors.) *)
Definition register (refusal : Desc -> Desc -> error) (c : Collector)
    (r : gmap string Collector) : option error * gmap string Collector :=
  match r !! fqName (describe c) with
  | None => (None, <[fqName (describe c) := c]> r)
  | Some c' =>
      if decide (same_dimensions (describe c') (describe c))
      then (Some AlreadyRegisteredError, r)
      else (Some (refusal (describe c') (describe c)), r)
  end.

End prometheus.
Export prometheus.

(** ** The controller *)

Record Controller := {
  Namespace : string;
  Name : string;
  ClusterProvider : string;
  KubernetesVersion : string;
  ImageConfig : option ScanImageConfig;

  kcs : option kubernetes_Clientset;
  xcs : option kubeapiext_Clientset;
  coreFactory : option corectl_Factory;
  batchFactory : option batchctl_Factory;
  cisFactory : option cisoperatorctl_Factory;
  apply_ : option apply_Apply;
  monitoringClient : option MonitoringV1Interface;

  mu : option sync_Mutex;

  numTestsFailed : option GaugeVec;
  numScansComplete : option CounterVec;
  numTestsSkipped : option GaugeVec;
  numTestsTotal : option GaugeVec;
  numTestsNA : option GaugeVec;
  numTestsPassed : option GaugeVec
}.

(** Assignments [ctl.f = v] through the pointer [ctl]. *)

Definition set_ClusterProvider (v : _) (c : Controller) : Controller :=
  {| Namespace := Namespace c; Name := Name c; ClusterProvider := v;
     KubernetesVersion := KubernetesVersion c; ImageConfig := ImageConfig c;
     kcs := kcs c; xcs := xcs c; coreFactory := coreFactory c;
     batchFactory := batchFactory c; cisFactory := cisFactory c;
     apply_ := apply_ c; monitoringClient := monitoringClient c; mu := mu c;
     numTestsFailed := numTestsFailed c; numScansComplete := numScansComplete c;
     numTestsSkipped := numTestsSkipped c; numTestsTotal := numTestsTotal c;
     numTestsNA := numTestsNA c; numTestsPassed := numTestsPassed c |}.
Definition set_KubernetesVersion (v : _) (c : Controller) : Controller :=
  {| Namespace := Namespace c; Name := Name c; ClusterProvider := ClusterProvider c;
     KubernetesVersion := v; ImageConfig := ImageConfig c;
     kcs := kcs c; xcs := xcs c; coreFactory := coreFactory c;
     batchFactory := batchFactory c; cisFactory := cisFactory c;
     apply_ := apply_ c; monitoringClient := monitoringClient c; mu := mu c;
     numTestsFailed := numTestsFailed c; numScansComplete := numScansComplete c;
     numTestsSkipped := numTestsSkipped c; numTestsTotal := numTestsTotal c;
     numTestsNA := numTestsNA c; numTestsPassed := numTestsPassed c |}.
Definition set_kcs (v : _) (c : Controller) : Controller :=
  {| Namespace := Namespace c; Name := Name c; ClusterProvider := ClusterProvider c;
     KubernetesVersion := KubernetesVersion c; ImageConfig := ImageConfig c;
     kcs := v; xcs := xcs c; coreFactory := coreFactory c;
     batchFactory := batchFactory c; cisFactory := cisFactory c;
     apply_ := apply_ c; monitoringClient := monitoringClient c; mu := mu c;
     numTestsFailed := numTestsFailed c; numScansComplete := numScansComplete c;
     numTestsSkipped := numTestsSkipped c; numTestsTotal := numTestsTotal c;
     numTestsNA := numTestsNA c; numTestsPassed := numTestsPassed c |}.
Definition set_xcs (v : _) (c : Controller) : Controller :=
  {| Namespace := Namespace c; Name := Name c; ClusterProvider := ClusterProvider c;
     KubernetesVersion := KubernetesVersion c; ImageConfig := ImageConfig c;
     kcs := kcs c; xcs := v; coreFactory := coreFactory c;
     batchFactory := batchFactory c; cisFactory := cisFactory c;
     apply_ := apply_ c; monitoringClient := monitoringClient c; mu := mu c;
     numTestsFailed := numTestsFailed c; numScansComplete := numScansComplete c;
     numTestsSkipped := numTestsSkipped c; numTestsTotal := numTestsTotal c;
     numTestsNA := numTestsNA c; numTestsPassed := numTestsPassed c |}.
Definition set_coreFactory (v : _) (c : Controller) : Controller :=
  {| Namespace := Namespace c; Name := Name c; ClusterProvider := ClusterProvider c;
     KubernetesVersion := KubernetesVersion c; ImageConfig := ImageConfig c;
     kcs := kcs c; xcs := xcs c; coreFactory := v;
     batchFactory := batchFactory c; cisFactory := cisFactory c;
     apply_ := apply_ c; monitoringClient := monitoringClient c; mu := mu c;
     numTestsFailed := numTestsFailed c; numScansComplete := numScansComplete c;
     numTestsSkipped := numTestsSkipped c; numTestsTotal := numTestsTotal c;
     numTestsNA := numTestsNA c; numTestsPassed := numTestsPassed c |}.
Definition set_batchFactory (v : _) (c : Controller) : Controller :=
  {| Namespace := Namespace c; Name := Name c; ClusterProvider := ClusterProvider c;
     KubernetesVersion := KubernetesVersion c; ImageConfig := ImageConfig c;
     kcs := kcs c; xcs := xcs c; coreFactory := coreFactory c;
     batchFactory := v; cisFactory := cisFactory c;
     apply_ := apply_ c; monitoringClient := monitoringClient c; mu := mu c;
     numTestsFailed := numTestsFailed c; numScansComplete := numScansComplete c;
     numTestsSkipped := numTestsSkipped c; numTestsTotal := numTestsTotal c;
     numTestsNA := numTestsNA c; numTestsPassed := numTestsPassed c |}.
Definition set_cisFactory (v : _) (c : Controller) : Controller :=
  {| Namespace := Namespace c; Name := Name c; ClusterProvider := ClusterProvider c;
     KubernetesVersion := KubernetesVersion c; ImageConfig := ImageConfig c;
     kcs := kcs c; xcs := xcs c; coreFactory := coreFactory c;
     batchFactory := batchFactory c; cisFactory := v;
     apply_ := apply_ c; monitoringClient := monitoringClient c; mu := mu c;
     numTestsFailed := numTestsFailed c; numScansComplete := numScansComplete c;
     numTestsSkipped := numTestsSkipped c; numTestsTotal := numTestsTotal c;
     numTestsNA := numTestsNA c; numTestsPassed := numTestsPassed c |}.
Definition set_apply_ (v : _) (c : Controller) : Controller :=
  {| Namespace := Namespace c; Name := Name c; ClusterProvider := ClusterProvider c;
     KubernetesVersion := KubernetesVersion c; ImageConfig := ImageConfig c;
     kcs := kcs c; xcs := xcs c; coreFactory := coreFactory c;
     batchFactory := batchFactory c; cisFactory := cisFactory c;
     apply_ := v; monitoringClient := monitoringClient c; mu := mu c;
     numTestsFailed := numTestsFailed c; numScansComplete := numScansComplete c;
     numTestsSkipped := numTestsSkipped c; numTestsTotal := numTestsTotal c;
     numTestsNA := numTestsNA c; numTestsPassed := numTestsPassed c |}.
Definition set_monitoringClient (v : _) (c : Controller) : Controller :=
  {| Namespace := Namespace c; Name := Name c; ClusterProvider := ClusterProvider c;
     KubernetesVersion := KubernetesVersion c; ImageConfig := ImageConfig c;
     kcs := kcs c; xcs := xcs c; coreFactory := coreFactory c;
     batchFactory := batchFactory c; cisFactory := cisFactory c;
     apply_ := apply_ c; monitoringClient := v; mu := mu c;
     numTestsFailed := numTestsFailed c; numScansComplete := numScansComplete c;
     numTestsSkipped := numTestsSkipped c; numTestsTotal := numTestsTotal c;
     numTestsNA := numTestsNA c; numTestsPassed := numTestsPassed c |}.
Definition set_numTestsFailed (v : _) (c : Controller) : Controller :=
  {| Namespace := Namespace c; Name := Name c; ClusterProvider := ClusterProvider c;
     KubernetesVersion := KubernetesVersion c; ImageConfig := ImageConfig c;
     kcs := kcs c; xcs := xcs c; coreFactory := coreFactory c;
     batchFactory := batchFactory c; cisFactory := cisFactory c;
     apply_ := apply_ c; monitoringClient := monitoringClient c; mu := mu c;
     numTestsFailed := v; numScansComplete := numScansComplete c;
     numTestsSkipped := numTestsSkipped c; numTestsTotal := numTestsTotal c;
     numTestsNA := numTestsNA c; numTestsPassed := numTestsPassed c |}.
Definition set_numScansComplete (v : _) (c : Controller) : Controller :=
  {| Namespace := Namespace c; Name := Name c; ClusterProvider := ClusterProvider c;
     KubernetesVersion := KubernetesVersion c; ImageConfig := ImageConfig c;
     kcs := kcs c; xcs := xcs c; coreFactory := coreFactory c;
     batchFactory := batchFactory c; cisFactory := cisFactory c;
     apply_ := apply_ c; monitoringClient := monitoringClient c; mu := mu c;
     numTestsFailed := numTestsFailed c; numScansComplete := v;
     numTestsSkipped := numTestsSkipped c; numTestsTotal := numTestsTotal c;
     numTestsNA := numTestsNA c; numTestsPassed := numTestsPassed c |}.
Definition set_numTestsSkipped (v : _) (c : Controller) : Controller :=
  {| Namespace := Namespace c; Name := Name c; ClusterProvider := ClusterProvider c;
     KubernetesVersion := KubernetesVersion c; ImageConfig := ImageConfig c;
     kcs := kcs c; xcs := xcs c; coreFactory := coreFactory c;
     batchFactory := batchFactory c; cisFactory := cisFactory c;
     apply_ := apply_ c; monitoringClient := monitoringClient c; mu := mu c;
     numTestsFailed := numTestsFailed c; numScansComplete := numScansComplete c;
     numTestsSkipped := v; numTestsTotal := numTestsTotal c;
     numTestsNA := numTestsNA c; numTestsPassed := numTestsPassed c |}.
Definition set_numTestsTotal (v : _) (c : Controller) : Controller :=
  {| Namespace := Namespace c; Name := Name c; ClusterProvider := ClusterProvider c;
     KubernetesVersion := KubernetesVersion c; ImageConfig := ImageConfig c;
     kcs := kcs c; xcs := xcs c; coreFactory := coreFactory c;
     batchFactory := batchFactory c; cisFactory := cisFactory c;
     apply_ := apply_ c; monitoringClient := monitoringClient c; mu := mu c;
     numTestsFailed := numTestsFailed c; numScansComplete := numScansComplete c;
     numTestsSkipped := numTestsSkipped c; numTestsTotal := v;
     numTestsNA := numTestsNA c; numTestsPassed := numTestsPassed c |}.
Definition set_numTestsNA (v : _) (c : Controller) : Controller :=
  {| Namespace := Namespace c; Name := Name c; ClusterProvider := ClusterProvider c;
     KubernetesVersion := KubernetesVersion c; ImageConfig := ImageConfig c;
     kcs := kcs c; xcs := xcs c; coreFactory := coreFactory c;
     batchFactory := batchFactory c; cisFactory := cisFactory c;
     apply_ := apply_ c; monitoringClient := monitoringClient c; mu := mu c;
     numTestsFailed := numTestsFailed c; numScansComplete := numScansComplete c;
     numTestsSkipped := numTestsSkipped c; numTestsTotal := numTestsTotal c;
     numTestsNA := v; numTestsPassed := numTestsPassed c |}.
Definition set_numTestsPassed (v : _) (c : Controller) : Controller :=
  {| Namespace := Namespace c; Name := Name c; ClusterProvider := ClusterProvider c;
     KubernetesVersion := KubernetesVersion c; ImageConfig := ImageConfig c;
     kcs := kcs c; xcs := xcs c; coreFactory := coreFactory c;
     batchFactory := batchFactory c; cisFactory := cisFactory c;
     apply_ := apply_ c; monitoringClient := monitoringClient c; mu := mu c;
     numTestsFailed := numTestsFailed c; numScansComplete := numScansComplete c;
     numTestsSkipped := numTestsSkipped c; numTestsTotal := numTestsTotal c;
     numTestsNA := numTestsNA c; numTestsPassed := v |}.


(** ** Calls into other packages and the process state *)

(** One constructor per function of another package (or of another file of
    this package) that controller.go calls. *)
Inductive Call :=
| rest_InClusterConfig
| kubernetes_NewForConfig (cfg : rest_Config)
| kubeapiext_NewForConfig (cfg : rest_Config)
| detector_DetectProvider (k8sClient : kubernetes_Clientset)
| discovery_ServerVersion (k8sClient : kubernetes_Clientset)
| logrus_Infof (msg : string)
| apply_NewForConfig (cfg : rest_Config)
| cisoperatorctl_NewFactoryFromConfig (cfg : rest_Config)
| batchctl_NewFactoryFromConfig (cfg : rest_Config)
| corectl_NewFactoryFromConfig (cfg : rest_Config)
| v1monitoringclient_NewForConfig (cfg : rest_Config)
| prometheus_Register (c : Collector)
| c_handleJobs
| c_handlePods
| c_handleClusterScans
| c_handleScheduledClusterScans
| c_handleClusterScanMetrics
| start_All (threads : Z) (cis : option cisoperatorctl_Factory)
            (core : option corectl_Factory) (batch : option batchctl_Factory)
| crd_NewFactoryFromClientGetter (xcs : option kubeapiext_Clientset)
| scan_ClusterScanCRD
| factory_BatchCreateCRDs (crds : list crd_CRD)
| factory_BatchWait.

(** State shared by everything in the process: the registry behind
    [prometheus.Register] ([prometheus.DefaultRegisterer]) and the samples of
    the collectors, by family name and by the values of the two labels. *)
Record Process := {
  defaultRegistry : gmap string Collector;
  samples : gmap (string * (string * string)) Z
}.

(** What the rest of the system answers, per call site of controller.go;
    [Register_refusal] is the message of [prometheus.Register] when it
    refuses a descriptor (the second) because of the one held under its
    name (the first), of other dimensions. *)
Record World := {
  InClusterConfig_answer : result rest_Config;
  kcs_answer : rest_Config -> result kubernetes_Clientset;
  xcs_answer : rest_Config -> result kubeapiext_Clientset;
  clientset_answer : rest_Config -> result kubernetes_Clientset;
  DetectProvider_answer : kubernetes_Clientset -> result string;
  ServerVersion_answer : kubernetes_Clientset -> result version_Info;
  apply_answer : rest_Config -> result apply_Apply;
  cisFactory_answer : rest_Config -> result cisoperatorctl_Factory;
  batchFactory_answer : rest_Config -> result batchctl_Factory;
  coreFactory_answer : rest_Config -> result corectl_Factory;
  monitoringClient_answer : rest_Config -> result MonitoringV1Interface;
  handleJobs_answer : Controller -> option error;
  handlePods_answer : Controller -> option error;
  handleClusterScans_answer : Controller -> option error;
  handleScheduledClusterScans_answer : Controller -> option error;
  handleClusterScanMetrics_answer : Controller -> option error;
  start_All_answer : Controller -> option error;
  ClusterScanCRD_answer : result crd_CRD;
  BatchWait_answer : list crd_CRD -> option error;
  Register_refusal : Desc -> Desc -> error
}.

(** A computation: from the process state to a value, the new process state
    and the calls made, oldest first. *)
Definition Run (A : Type) : Type := Process -> A * Process * list Call.

Definition ret {A} (a : A) : Run A := fun p => (a, p, []).

Definition bind {A B} (m : Run A) (k : A -> Run B) : Run B :=
  fun p =>
    match m p with
    | (a, p1, t1) =>
        match k a p1 with
        | (b, p2, t2) => (b, p2, (t1 ++ t2)%list)
        end
    end.

(** A call that leaves the process state alone. *)
Definition extern {A} (c : Call) (answer : A) : Run A := fun p => (answer, p, [c]).

Notation "'let*' x ':=' m 'in' k" := (bind m (fun x => k))
  (at level 10, x name, m at level 100, k at level 200).

(** [v, err := m; if err != nil { return on_err(err) }; k v] *)
Definition try {A B} (m : Run (result A)) (on_err : error -> B) (k : A -> Run B) : Run B :=
  let* r := m in
  match r with
  | Ok v => k v
  | Err err => ret (on_err err)
  end.

Notation "'let?' v ':=' m 'on_err' h 'in' k" := (try m h (fun v => k))
  (at level 10, v name, m at level 100, h at level 100, k at level 200).

(** [prometheus.Register(c)], on the default registry. *)
Definition Register (w : World) (c : Collector) : Run (option error) :=
  fun p =>
    match register (Register_refusal w) c (defaultRegistry p) with
    | (err, r) => (err, {| defaultRegistry := r; samples := samples p |},
                   [prometheus_Register c])
    end.

(** [fmt.Errorf(prefix + "%s", err.Error())] *)
Definition Errorf (prefix : string) (err : error) : error := prefix +:+ err.

(** ** controller.go *)

Section Package.
Variable w : World.

Definition detectClusterProvider (k8sClient : kubernetes_Clientset)
  : Run (string * option error) :=
  let* r := extern (detector_DetectProvider k8sClient) (DetectProvider_answer w k8sClient) in
  match r with
  | Err err => ret ("", Some err)
  | Ok provider => ret (provider, None)
  end.

Definition detectKubernetesVersion (k8sClient : kubernetes_Clientset)
  : Run (string * option error) :=
  let* r := extern (discovery_ServerVersion k8sClient) (ServerVersion_answer w k8sClient) in
  match r with
  | Err err => ret ("", Some err)
  | Ok v => ret (GitVersion v, None)
  end.

(** The controller is passed by pointer: what [initializeMetrics] assigned
    is returned next to the error. *)
Definition initializeMetrics (ctl : Controller) : Run (option error * Controller) :=
  let v := NewGaugeVec
    {| gName := "cis_scan_num_tests_fail";
       gHelp := "Number of test failed in the CIS scans, partioned by scan_name, scan_profile_name" |}
    ["scan_name"; "scan_profile_name"] in
  let ctl := set_numTestsFailed (Some v) ctl in
  let* err := Register w (OfGauge v) in
  match err with Some err => ret (Some err, ctl) | None =>

  let v := NewCounterVec
    {| cName := "cis_scan_num_scans_complete";
       cHelp := "Number of CIS clusterscans completed, partioned by scan_name, scan_profile_name" |}
    ["scan_name"; "scan_profile_name"] in
  let ctl := set_numScansComplete (Some v) ctl in
  let* err := Register w (OfCounter v) in
  match err with Some err => ret (Some err, ctl) | None =>

  let v := NewGaugeVec
    {| gName := "cis_scan_num_tests_total";
       gHelp := "Total Number of tests run in the CIS scans, partioned by scan_name, scan_profile_name" |}
    ["scan_name"; "scan_profile_name"] in
  let ctl := set_numTestsTotal (Some v) ctl in
  let* err := Register w (OfGauge v) in
  match err with Some err => ret (Some err, ctl) | None =>

  let v := NewGaugeVec
    {| gName := "cis_scan_num_tests_pass";
       gHelp := "Number of tests passing in the CIS scans, partioned by scan_name, scan_profile_name" |}
    ["scan_name"; "scan_profile_name"] in
  let ctl := set_numTestsPassed (Some v) ctl in
  let* err := Register w (OfGauge v) in
  match err with Some err => ret (Some err, ctl) | None =>

  let v := NewGaugeVec
    {| gName := "cis_scan_num_tests_skipped";
       gHelp := "Number of test skipped in the CIS scans, partioned by scan_name, scan_profile_name" |}
    ["scan_name"; "scan_profile_name"] in
  let ctl := set_numTestsSkipped (Some v) ctl in
  let* err := Register w (OfGauge v) in
  match err with Some err => ret (Some err, ctl) | None =>

  let v := NewGaugeVec
    {| gName := "cis_scan_num_tests_na";
       gHelp := "Number of tests not applicable in the CIS scans, partioned by scan_name, scan_profile_name" |}
    ["scan_name"; "scan_profile_name"] in
  let ctl := set_numTestsNA (Some v) ctl in
  let* err := Register w (OfGauge v) in
  match err with Some err => ret (Some err, ctl) | None =>

  ret (None, ctl)
  end end end end end end.

Definition NewController (cfg : option rest_Config) (namespace name : string)
    (imgConfig : option ScanImageConfig) : Run (option Controller * option error) :=
  let? cfg := match cfg with
              | None => extern rest_InClusterConfig (InClusterConfig_answer w)
              | Some cfg => ret (Ok cfg)
              end
    on_err (fun err => (None, Some err)) in
  let ctl := {| Namespace := namespace; Name := name;
                ClusterProvider := ""; KubernetesVersion := "";
                ImageConfig := imgConfig;
                kcs := None; xcs := None; coreFactory := None;
                batchFactory := None; cisFactory := None; apply_ := None;
                monitoringClient := None;
                mu := Some {| locked := false |};
                numTestsFailed := None; numScansComplete := None;
                numTestsSkipped := None; numTestsTotal := None;
                numTestsNA := None; numTestsPassed := None |} in

  let? v := extern (kubernetes_NewForConfig cfg) (kcs_answer w cfg)
    on_err (fun err => (None, Some err)) in
  let ctl := set_kcs (Some v) ctl in

  let? v := extern (kubeapiext_NewForConfig cfg) (xcs_answer w cfg)
    on_err (fun err => (None, Some err)) in
  let ctl := set_xcs (Some v) ctl in

  let? clientset := extern (kubernetes_NewForConfig cfg) (clientset_answer w cfg)
    on_err (fun err => (None, Some err)) in
  let* r := detectClusterProvider clientset in
  let ctl := set_ClusterProvider (fst r) ctl in
  match snd r with Some err => ret (None, Some err) | None =>
  let* _ := extern (logrus_Infof ("ClusterProvider detected " +:+ ClusterProvider ctl)) tt in

  let* r := detectKubernetesVersion clientset in
  let ctl := set_KubernetesVersion (fst r) ctl in
  match snd r with Some err => ret (None, Some err) | None =>
  let* _ := extern (logrus_Infof ("KubernetesVersion detected " +:+ KubernetesVersion ctl)) tt in

  let? v := extern (apply_NewForConfig cfg) (apply_answer w cfg)
    on_err (fun err => (None, Some err)) in
  let ctl := set_apply_ (Some v) ctl in
  let? v := extern (cisoperatorctl_NewFactoryFromConfig cfg) (cisFactory_answer w cfg)
    on_err (fun err =>
      (None, Some (Errorf "Error building securityscan NewFactoryFromConfig: " err))) in
  let ctl := set_cisFactory (Some v) ctl in

  let? v := extern (batchctl_NewFactoryFromConfig cfg) (batchFactory_answer w cfg)
    on_err (fun err =>
      (None, Some (Errorf "Error building batch NewFactoryFromConfig: " err))) in
  let ctl := set_batchFactory (Some v) ctl in

  let? v := extern (corectl_NewFactoryFromConfig cfg) (coreFactory_answer w cfg)
    on_err (fun err =>
      (None, Some (Errorf "Error building core NewFactoryFromConfig: " err))) in
  let ctl := set_coreFactory (Some v) ctl in

  let? v := extern (v1monitoringclient_NewForConfig cfg) (monitoringClient_answer w cfg)
    on_err (fun err =>
      (None, Some (Errorf "Error building v1 monitoring client from config: " err))) in
  let ctl := set_monitoringClient (Some v) ctl in

  let* r := initializeMetrics ctl in
  let ctl := snd r in
  match fst r with
  | Some err => ret (None, Some (Errorf "Error registering CIS Metrics: " err))
  | None => ret (Some ctl, None)
  end
  end end.

(** [threads] goes to [start.All]; [resync] is not used by the body. *)
Definition Start (c : Controller) (threads : Z) (resync : Z) : Run (option error) :=
  let* err := extern c_handleJobs (handleJobs_answer w c) in
  match err with Some err => ret (Some err) | None =>
  let* err := extern c_handlePods (handlePods_answer w c) in
  match err with Some err => ret (Some err) | None =>
  let* err := extern c_handleClusterScans (handleClusterScans_answer w c) in
  match err with Some err => ret (Some err) | None =>
  let* err := extern c_handleScheduledClusterScans (handleScheduledClusterScans_answer w c) in
  match err with Some err => ret (Some err) | None =>
  let* err := extern c_handleClusterScanMetrics (handleClusterScanMetrics_answer w c) in
  match err with Some err => ret (Some err) | None =>
  extern (start_All threads (cisFactory c) (coreFactory c) (batchFactory c))
         (start_All_answer w c)
  end end end end end.

(** The [for _, crdFn := range ...] loop of [registerCRD]: [crds] is the
    slice built so far; an error of a constructor ends the loop and the
    function. *)
Fixpoint collectCRDs (crdFns : list (Run (result crd_CRD))) (crds : list crd_CRD)
  : Run (result (list crd_CRD)) :=
  match crdFns with
  | [] => ret (Ok crds)
  | crdFn :: rest =>
      let* r := crdFn in
      match r with
      | Err err => ret (Err err)
      | Ok crdef => collectCRDs rest (crds ++ [crdef])%list
      end
  end.

Definition registerCRD (c : Controller) : Run (option error) :=
  let* _ := extern (crd_NewFactoryFromClientGetter (xcs c)) tt in
  let? crds := collectCRDs [extern scan_ClusterScanCRD (ClusterScanCRD_answer w)] []
    on_err (fun err => Some err) in
  let* _ := extern (factory_BatchCreateCRDs crds) tt in
  extern factory_BatchWait (BatchWait_answer w crds).

End Package.

(** ** Recording a completed scan *)

(** The counts of a scan's report ([ResultSummary] of the data model). *)
Record ResultSummary := {
  passed : Z;
  failed : Z;
  skipped : Z;
  notApplicable : Z;
  total : Z
}.

(** [g.WithLabelValues(scan, profile).Set(v)]: a gauge takes the value it is
    given. *)
Definition Gauge_Set (g : GaugeVec) (key : string * string) (v : Z) : Run unit :=
  fun p => (tt, {| defaultRegistry := defaultRegistry p;
                   samples := <[(fqName (gaugeDesc g), key) := v]> (samples p) |}, []).

(** [c.WithLabelValues(scan, profile).Inc()]: a counter, absent before its
    first use, counts from zero. *)
Definition Counter_Inc (c : CounterVec) (key : string * string) : Run unit :=
  fun p => (tt, {| defaultRegistry := defaultRegistry p;
                   samples := <[(fqName (counterDesc c), key) :=
                                  default 0 (samples p !! (fqName (counterDesc c), key)) + 1]>
                                (samples p) |}, []).

(** Modelled from the spec: the body of [handleClusterScanMetrics], which
    records a completed scan, is not part of controller.go.  [Record]
    "applies the five gauge values (replacing prior gauge values for that
    key ...) and increments the completed-count counter by one", on the six
    collectors of the controller.  A nil collector is a nil dereference,
    answered by [None]. *)
Definition Record_ (c : Controller) (seriesKey : string * string) (summary : ResultSummary)
  : Run (option unit) :=
  match numTestsFailed c, numTestsTotal c, numTestsPassed c,
        numTestsSkipped c, numTestsNA c, numScansComplete c with
  | Some gFailed, Some gTotal, Some gPassed, Some gSkipped, Some gNA, Some cComplete =>
      let* _ := Gauge_Set gFailed seriesKey (failed summary) in
      let* _ := Gauge_Set gTotal seriesKey (total summary) in
      let* _ := Gauge_Set gPassed seriesKey (passed summary) in
      let* _ := Gauge_Set gSkipped seriesKey (skipped summary) in
      let* _ := Gauge_Set gNA seriesKey (notApplicable summary) in
      let* _ := Counter_Inc cComplete seriesKey in
      ret (Some tt)
  | _, _, _, _, _, _ => ret None
  end.

(** ** Concrete worlds *)

Definition a_config : rest_Config := {| Host := "https://10.43.0.1:443" |}.

(** A world in which every call succeeds, but for the four answers given. *)
Definition world_with (inCluster : result rest_Config) (provider : result string)
    (pods : option error) (clusterScanCRD : result crd_CRD) : World := {|
  InClusterConfig_answer := inCluster;
  kcs_answer := fun cfg => Ok {| kcs_cfg := cfg |};
  xcs_answer := fun cfg => Ok {| xcs_cfg := cfg |};
  clientset_answer := fun cfg => Ok {| kcs_cfg := cfg |};
  DetectProvider_answer := fun _ => provider;
  ServerVersion_answer := fun _ => Ok {| GitVersion := "v1.20.4+k3s1" |};
  apply_answer := fun cfg => Ok {| apply_cfg := cfg |};
  cisFactory_answer := fun cfg => Ok {| cis_cfg := cfg |};
  batchFactory_answer := fun cfg => Ok {| batch_cfg := cfg |};
  coreFactory_answer := fun cfg => Ok {| core_cfg := cfg |};
  monitoringClient_answer := fun cfg => Ok {| monitoring_cfg := cfg |};
  handleJobs_answer := fun _ => None;
  handlePods_answer := fun _ => pods;
  handleClusterScans_answer := fun _ => None;
  handleScheduledClusterScans_answer := fun _ => None;
  handleClusterScanMetrics_answer := fun _ => None;
  start_All_answer := fun _ => None;
  ClusterScanCRD_answer := clusterScanCRD;
  BatchWait_answer := fun _ => None;
  Register_refusal := fun _ d => "descriptor " +:+ fqName d +:+ " refused"
|}.

(** Every call succeeds. *)
Definition world_ok : World :=
  world_with (Ok a_config) (Ok "k3s") None (Ok {| GVK_Kind := "ClusterScan" |}).

(** The process runs outside a cluster. *)
Definition world_outside : World :=
  world_with (Err "unable to load in-cluster configuration, KUBERNETES_SERVICE_HOST and KUBERNETES_SERVICE_PORT must be defined")
             (Ok "k3s") None (Ok {| GVK_Kind := "ClusterScan" |}).

(** The provider cannot be detected. *)
Definition world_no_provider : World :=
  world_with (Ok a_config) (Err "the server is currently unable to handle the request")
             None (Ok {| GVK_Kind := "ClusterScan" |}).

(** The pod handler cannot be registered. *)
Definition world_no_pods : World :=
  world_with (Ok a_config) (Ok "k3s") (Some "pods handler: not registered")
             (Ok {| GVK_Kind := "ClusterScan" |}).

(** The definition of ClusterScan cannot be built. *)
Definition world_no_crd : World :=
  world_with (Ok a_config) (Ok "k3s") None (Err "schema of ClusterScan: not generated").

(** A process in which nothing was registered or recorded yet. *)
Definition fresh : Process := {| defaultRegistry := ∅; samples := ∅ |}.

(** ** Reading the outcome of a computation *)

Definition value {A} (r : A * Process * list Call) : A := fst (fst r).
Definition state {A} (r : A * Process * list Call) : Process := snd (fst r).
Definition calls {A} (r : A * Process * list Call) : list Call := snd r.

(** How often a kind of call occurs among the calls made. *)
Fixpoint count (f : Call -> bool) (t : list Call) : nat :=
  match t with
  | [] => 0%nat
  | c :: t => ((if f c then 1 else 0) + count f t)%nat
  end.

Definition is_DetectProvider (c : Call) : bool :=
  match c with detector_DetectProvider _ => true | _ => false end.
Definition is_ServerVersion (c : Call) : bool :=
  match c with discovery_ServerVersion _ => true | _ => false end.
Definition is_Register (c : Call) : bool :=
  match c with prometheus_Register _ => true | _ => false end.
Definition is_start_All (c : Call) : bool :=
  match c with start_All _ _ _ _ => true | _ => false end.
Definition is_client_construction (c : Call) : bool :=
  match c with
  | kubernetes_NewForConfig _ | kubeapiext_NewForConfig _ | apply_NewForConfig _
  | cisoperatorctl_NewFactoryFromConfig _ | batchctl_NewFactoryFromConfig _
  | corectl_NewFactoryFromConfig _ | v1monitoringclient_NewForConfig _ => true
  | _ => false
  end.

(** The six metric fields of a controller, in the order of the struct. *)
Definition metricFields (c : Controller) : list (option Collector) :=
  [OfGauge <$> numTestsFailed c; OfCounter <$> numScansComplete c;
   OfGauge <$> numTestsSkipped c; OfGauge <$> numTestsTotal c;
   OfGauge <$> numTestsNA c; OfGauge <$> numTestsPassed c].

(** The six collectors of this package, as [initializeMetrics] builds them. *)
Definition cis_scan_num_tests_fail : GaugeVec :=
  NewGaugeVec
    {| gName := "cis_scan_num_tests_fail";
       gHelp := "Number of test failed in the CIS scans, partioned by scan_name, scan_profile_name" |}
    ["scan_name"; "scan_profile_name"].
Definition cis_scan_num_scans_complete : CounterVec :=
  NewCounterVec
    {| cName := "cis_scan_num_scans_complete";
       cHelp := "Number of CIS clusterscans completed, partioned by scan_name, scan_profile_name" |}
    ["scan_name"; "scan_profile_name"].
Definition cis_scan_num_tests_total : GaugeVec :=
  NewGaugeVec
    {| gName := "cis_scan_num_tests_total";
       gHelp := "Total Number of tests run in the CIS scans, partioned by scan_name, scan_profile_name" |}
    ["scan_name"; "scan_profile_name"].
Definition cis_scan_num_tests_pass : GaugeVec :=
  NewGaugeVec
    {| gName := "cis_scan_num_tests_pass";
       gHelp := "Number of tests passing in the CIS scans, partioned by scan_name, scan_profile_name" |}
    ["scan_name"; "scan_profile_name"].
Definition cis_scan_num_tests_skipped : GaugeVec :=
  NewGaugeVec
    {| gName := "cis_scan_num_tests_skipped";
       gHelp := "Number of test skipped in the CIS scans, partioned by scan_name, scan_profile_name" |}
    ["scan_name"; "scan_profile_name"].
Definition cis_scan_num_tests_na : GaugeVec :=
  NewGaugeVec
    {| gName := "cis_scan_num_tests_na";
       gHelp := "Number of tests not applicable in the CIS scans, partioned by scan_name, scan_profile_name" |}
    ["scan_name"; "scan_profile_name"].

(** The controller after the six assignments of [initializeMetrics]. *)
Definition with_metrics (ctl : Controller) : Controller :=
  set_numTestsNA (Some cis_scan_num_tests_na)
    (set_numTestsSkipped (Some cis_scan_num_tests_skipped)
      (set_numTestsPassed (Some cis_scan_num_tests_pass)
        (set_numTestsTotal (Some cis_scan_num_tests_total)
          (set_numScansComplete (Some cis_scan_num_scans_complete)
            (set_numTestsFailed (Some cis_scan_num_tests_fail) ctl))))).

(** The six registrations of [initializeMetrics], in order. *)
Definition registrations : list Collector :=
  [OfGauge cis_scan_num_tests_fail; OfCounter cis_scan_num_scans_complete;
   OfGauge cis_scan_num_tests_total; OfGauge cis_scan_num_tests_pass;
   OfGauge cis_scan_num_tests_skipped; OfGauge cis_scan_num_tests_na].

(** The registry after them. *)
Definition with_registered (r : gmap string Collector) : gmap string Collector :=
  foldl (fun r c => <[fqName (describe c) := c]> r) r registrations.

Definition metricNames : list string :=
  ["cis_scan_num_tests_fail"; "cis_scan_num_scans_complete"; "cis_scan_num_tests_total";
   "cis_scan_num_tests_pass"; "cis_scan_num_tests_skipped"; "cis_scan_num_tests_na"].

(** ** Vocabulary of the statements *)

(** The configuration [NewController] works with: the one it is given, or
    the in-cluster one. *)
Definition effective_config (w : World) (cfg : option rest_Config) : result rest_Config :=
  match cfg with
  | Some cfg => Ok cfg
  | None => InClusterConfig_answer w
  end.

Definition config_calls (cfg : option rest_Config) : list Call :=
  match cfg with
  | Some _ => []
  | None => [rest_InClusterConfig]
  end.

(** The controller before [initializeMetrics], once every client is built. *)
Definition constructed (namespace name : string) (imgConfig : option ScanImageConfig)
    (vk : kubernetes_Clientset) (vx : kubeapiext_Clientset) (provider version : string)
    (ap : apply_Apply) (cf : cisoperatorctl_Factory) (bf : batchctl_Factory)
    (cof : corectl_Factory) (mc : MonitoringV1Interface) : Controller :=
  {| Namespace := namespace; Name := name;
     ClusterProvider := provider; KubernetesVersion := version;
     ImageConfig := imgConfig;
     kcs := Some vk; xcs := Some vx; coreFactory := Some cof;
     batchFactory := Some bf; cisFactory := Some cf; apply_ := Some ap;
     monitoringClient := Some mc;
     mu := Some {| locked := false |};
     numTestsFailed := None; numScansComplete := None;
     numTestsSkipped := None; numTestsTotal := None;
     numTestsNA := None; numTestsPassed := None |}.

(** The calls of [NewController] before [initializeMetrics], when every
    answer is a success. *)
Definition construction_calls (cfg : option rest_Config) (cfg' : rest_Config)
    (cs : kubernetes_Clientset) (provider version : string) : list Call :=
  (config_calls cfg ++
   [kubernetes_NewForConfig cfg'; kubeapiext_NewForConfig cfg';
    kubernetes_NewForConfig cfg';
    detector_DetectProvider cs;
    logrus_Infof ("ClusterProvider detected " +:+ provider);
    discovery_ServerVersion cs;
    logrus_Infof ("KubernetesVersion detected " +:+ version);
    apply_NewForConfig cfg'; cisoperatorctl_NewFactoryFromConfig cfg';
    batchctl_NewFactoryFromConfig cfg'; corectl_NewFactoryFromConfig cfg';
    v1monitoringclient_NewForConfig cfg'])%list.

(** Every answer [NewController] asks for is a success. *)
Record answers_ok (w : World) (cfg : option rest_Config) (cfg' : rest_Config)
    (vk : kubernetes_Clientset) (vx : kubeapiext_Clientset) (cs : kubernetes_Clientset)
    (provider : string) (ver : version_Info)
    (ap : apply_Apply) (cf : cisoperatorctl_Factory) (bf : batchctl_Factory)
    (cof : corectl_Factory) (mc : MonitoringV1Interface) : Prop := {
  ok_config : effective_config w cfg = Ok cfg';
  ok_kcs : kcs_answer w cfg' = Ok vk;
  ok_xcs : xcs_answer w cfg' = Ok vx;
  ok_clientset : clientset_answer w cfg' = Ok cs;
  ok_provider : DetectProvider_answer w cs = Ok provider;
  ok_version : ServerVersion_answer w cs = Ok ver;
  ok_apply : apply_answer w cfg' = Ok ap;
  ok_cisFactory : cisFactory_answer w cfg' = Ok cf;
  ok_batchFactory : batchFactory_answer w cfg' = Ok bf;
  ok_coreFactory : coreFactory_answer w cfg' = Ok cof;
  ok_monitoringClient : monitoringClient_answer w cfg' = Ok mc
}.

(** A property of the value of a computation, whatever the state. *)
Definition always {B} (P : B -> Prop) (m : Run B) : Prop := forall p, P (value (m p)).

(** The two pairs a Go constructor may answer. *)
Definition atomic (r : option Controller * option error) : Prop :=
  (exists ctl, r = (Some ctl, None)) \/ (exists err, r = (None, Some err)).

(** The two kinds of collector this package uses. *)
Inductive Kind := Gauge | Counter.

Definition kind (c : Collector) : Kind :=
  match c with
  | OfGauge _ => Gauge
  | OfCounter _ => Counter
  end.

(** Kind, name and label names of a collector. *)
Definition familyOf (c : Collector) : Kind * string * list string :=
  (kind c, fqName (describe c), variableLabels (describe c)).

(** A controller for the examples: nothing assigned. *)
Definition blank : Controller :=
  {| Namespace := ""; Name := ""; ClusterProvider := ""; KubernetesVersion := "";
     ImageConfig := None; kcs := None; xcs := None; coreFactory := None;
     batchFactory := None; cisFactory := None; apply_ := None;
     monitoringClient := None; mu := None;
     numTestsFailed := None; numScansComplete := None; numTestsSkipped := None;
     numTestsTotal := None; numTestsNA := None; numTestsPassed := None |}.

(** One of the steps of [NewController] fails: the in-cluster lookup, a
    client or factory construction, a detection, or the registration of a
    metric whose name is taken. *)
Inductive step_fails (w : World) (cfg : option rest_Config) (p : Process) : Prop :=
| fails_InClusterConfig err :
    effective_config w cfg = Err err -> step_fails w cfg p
| fails_kcs cfg' err :
    effective_config w cfg = Ok cfg' -> kcs_answer w cfg' = Err err -> step_fails w cfg p
| fails_xcs cfg' err :
    effective_config w cfg = Ok cfg' -> xcs_answer w cfg' = Err err -> step_fails w cfg p
| fails_clientset cfg' err :
    effective_config w cfg = Ok cfg' -> clientset_answer w cfg' = Err err ->
    step_fails w cfg p
| fails_DetectProvider cfg' cs err :
    effective_config w cfg = Ok cfg' -> clientset_answer w cfg' = Ok cs ->
    DetectProvider_answer w cs = Err err -> step_fails w cfg p
| fails_ServerVersion cfg' cs err :
    effective_config w cfg = Ok cfg' -> clientset_answer w cfg' = Ok cs ->
    ServerVersion_answer w cs = Err err -> step_fails w cfg p
| fails_apply cfg' err :
    effective_config w cfg = Ok cfg' -> apply_answer w cfg' = Err err -> step_fails w cfg p
| fails_cisFactory cfg' err :
    effective_config w cfg = Ok cfg' -> cisFactory_answer w cfg' = Err err ->
    step_fails w cfg p
| fails_batchFactory cfg' err :
    effective_config w cfg = Ok cfg' -> batchFactory_answer w cfg' = Err err ->
    step_fails w cfg p
| fails_coreFactory cfg' err :
    effective_config w cfg = Ok cfg' -> coreFactory_answer w cfg' = Err err ->
    step_fails w cfg p
| fails_monitoringClient cfg' err :
    effective_config w cfg = Ok cfg' -> monitoringClient_answer w cfg' = Err err ->
    step_fails w cfg p
| fails_Register n :
    n ∈ metricNames -> is_Some (defaultRegistry p !! n) -> step_fails w cfg p.

(** Every client, factory and collector of the controller is assigned, and
    so is its mutex. *)
Definition fully_initialized (c : Controller) : Prop :=
  is_Some (kcs c) /\ is_Some (xcs c) /\ is_Some (coreFactory c) /\
  is_Some (batchFactory c) /\ is_Some (cisFactory c) /\ is_Some (apply_ c) /\
  is_Some (monitoringClient c) /\ is_Some (mu c) /\
  Forall is_Some (metricFields c).

(** What [NewController] answers in a fresh process where every call
    succeeds: the controller, the process state and the calls made. *)
Definition ctl_ok : Controller :=
  with_metrics
    (constructed "cis-operator-system" "cis-operator" None
       {| kcs_cfg := a_config |} {| xcs_cfg := a_config |} "k3s" "v1.20.4+k3s1"
       {| apply_cfg := a_config |} {| cis_cfg := a_config |} {| batch_cfg := a_config |}
       {| core_cfg := a_config |} {| monitoring_cfg := a_config |}).

Definition process_ok : Process :=
  {| defaultRegistry := with_registered ∅; samples := ∅ |}.

Definition calls_ok : list Call :=
  (construction_calls None a_config {| kcs_cfg := a_config |} "k3s" "v1.20.4+k3s1" ++
   map prometheus_Register registrations)%list.

(** A metric field that is not nil and whose collector is the one the
    registry of the process holds under its name. *)
Definition registered_in (p : Process) (f : option Collector) : Prop :=
  exists c, f = Some c /\ defaultRegistry p !! fqName (describe c) = Some c.

(** The five handlers of [Start], in the order of their registration, and
    what they answer. *)
Definition handlerCalls : list Call :=
  [c_handleJobs; c_handlePods; c_handleClusterScans; c_handleScheduledClusterScans;
   c_handleClusterScanMetrics].

Definition handlerAnswers (w : World) (c : Controller) : list (option error) :=
  [handleJobs_answer w c; handlePods_answer w c; handleClusterScans_answer w c;
   handleScheduledClusterScans_answer w c; handleClusterScanMetrics_answer w c].

(** A run of recordings, one per completed scan, oldest first; a nil
    dereference ends it. *)
Fixpoint recordAll (c : Controller) (rs : list ((string * string) * ResultSummary))
  : Run (option unit) :=
  match rs with
  | [] => ret (Some tt)
  | r :: rs =>
      let* done := Record_ c r.1 r.2 in
      match done with
      | None => ret None
      | Some _ => recordAll c rs
      end
  end.

(** What a scrape reads for a key: the five gauges, once all are set. *)
Definition summaryAt (key : string * string) (p : Process) : option ResultSummary :=
  match samples p !! ("cis_scan_num_tests_pass", key),
        samples p !! ("cis_scan_num_tests_fail", key),
        samples p !! ("cis_scan_num_tests_skipped", key),
        samples p !! ("cis_scan_num_tests_na", key),
        samples p !! ("cis_scan_num_tests_total", key) with
  | Some vp, Some vf, Some vs, Some vn, Some vt =>
      Some {| passed := vp; failed := vf; skipped := vs; notApplicable := vn; total := vt |}
  | _, _, _, _, _ => None
  end.

(** The count of completed scans for a key; zero before the first one. *)
Definition completedAt (key : string * string) (p : Process) : Z :=
  default 0 (samples p !! ("cis_scan_num_scans_complete", key)).

(** The recordings of a run that are for the key. *)
Definition recordingsOf (key : string * string)
    (rs : list ((string * string) * ResultSummary)) : list ((string * string) * ResultSummary) :=
  filter (fun r => r.1 = key) rs.

(** The summary of the latest recording for the key, or [d] without one. *)
Definition lastSummary (key : string * string)
    (rs : list ((string * string) * ResultSummary)) (d : option ResultSummary)
  : option ResultSummary :=
  match last (recordingsOf key rs) with
  | Some r => Some r.2
  | None => d
  end.

(** The scenario of the specification: a scan of profile P completes with
    8 passed, 2 failed, none skipped, 1 not applicable, 11 in total. *)
Definition scenario_summary : ResultSummary :=
  {| passed := 8; failed := 2; skipped := 0; notApplicable := 1; total := 11 |}.

(** ** Vocabulary of the further statements *)

(** The six assignments of [initializeMetrics], in the order it makes them. *)
Definition assignments : list (Controller -> Controller) :=
  [set_numTestsFailed (Some cis_scan_num_tests_fail);
   set_numScansComplete (Some cis_scan_num_scans_complete);
   set_numTestsTotal (Some cis_scan_num_tests_total);
   set_numTestsPassed (Some cis_scan_num_tests_pass);
   set_numTestsSkipped (Some cis_scan_num_tests_skipped);
   set_numTestsNA (Some cis_scan_num_tests_na)].

(** The registry after the collectors [cs] were registered, in order. *)
Definition registered_all (cs : list Collector) (r : gmap string Collector)
  : gmap string Collector :=
  foldl (fun r c => <[fqName (describe c) := c]> r) r cs.

(** The controller after the assignments [fs], in order. *)
Definition assigned_all (fs : list (Controller -> Controller)) (ctl : Controller)
  : Controller :=
  foldl (fun c f => f c) ctl fs.

(** A computation's outcome after one more call was made before it. *)
Definition prepend {A} (c : Call) (r : A * Process * list Call) : A * Process * list Call :=
  (value r, state r, c :: calls r).

(** The calls of [NewController] after the configuration is known and
    before [initializeMetrics], when every answer is a success. *)
Definition client_calls (cfg' : rest_Config) (cs : kubernetes_Clientset)
    (provider version : string) : list Call :=
  [kubernetes_NewForConfig cfg'; kubeapiext_NewForConfig cfg';
   kubernetes_NewForConfig cfg';
   detector_DetectProvider cs;
   logrus_Infof ("ClusterProvider detected " +:+ provider);
   discovery_ServerVersion cs;
   logrus_Infof ("KubernetesVersion detected " +:+ version);
   apply_NewForConfig cfg'; cisoperatorctl_NewFactoryFromConfig cfg';
   batchctl_NewFactoryFromConfig cfg'; corectl_NewFactoryFromConfig cfg';
   v1monitoringclient_NewForConfig cfg'].

(** One of the five constructions after the detections fails first: how
    many of them succeeded before it, and the error [NewController] answers
    for it. *)
Inductive client_failure (w : World) (cfg' : rest_Config) : nat -> error -> Prop :=
| failure_apply err :
    apply_answer w cfg' = Err err ->
    client_failure w cfg' 0 err
| failure_cisFactory ap err :
    apply_answer w cfg' = Ok ap ->
    cisFactory_answer w cfg' = Err err ->
    client_failure w cfg' 1 (Errorf "Error building securityscan NewFactoryFromConfig: " err)
| failure_batchFactory ap cf err :
    apply_answer w cfg' = Ok ap ->
    cisFactory_answer w cfg' = Ok cf ->
    batchFactory_answer w cfg' = Err err ->
    client_failure w cfg' 2 (Errorf "Error building batch NewFactoryFromConfig: " err)
| failure_coreFactory ap cf bf err :
    apply_answer w cfg' = Ok ap ->
    cisFactory_answer w cfg' = Ok cf ->
    batchFactory_answer w cfg' = Ok bf ->
    coreFactory_answer w cfg' = Err err ->
    client_failure w cfg' 3 (Errorf "Error building core NewFactoryFromConfig: " err)
| failure_monitoringClient ap cf bf cof err :
    apply_answer w cfg' = Ok ap ->
    cisFactory_answer w cfg' = Ok cf ->
    batchFactory_answer w cfg' = Ok bf ->
    coreFactory_answer w cfg' = Ok cof ->
    monitoringClient_answer w cfg' = Err err ->
    client_failure w cfg' 4 (Errorf "Error building v1 monitoring client from config: " err).

(** [NewController] fails before [initializeMetrics]: the error it answers
    and the calls it made, for each call that may fail first. *)
Inductive construction_failure (w : World) (cfg : option rest_Config)
  : error -> list Call -> Prop :=
| failure_InClusterConfig err :
    cfg = None -> InClusterConfig_answer w = Err err ->
    construction_failure w cfg err [rest_InClusterConfig]
| failure_kcs cfg' err :
    effective_config w cfg = Ok cfg' ->
    kcs_answer w cfg' = Err err ->
    construction_failure w cfg err
      (config_calls cfg ++ [kubernetes_NewForConfig cfg'])
| failure_xcs cfg' vk err :
    effective_config w cfg = Ok cfg' ->
    kcs_answer w cfg' = Ok vk ->
    xcs_answer w cfg' = Err err ->
    construction_failure w cfg err
      (config_calls cfg ++ [kubernetes_NewForConfig cfg'; kubeapiext_NewForConfig cfg'])
| failure_clientset cfg' vk vx err :
    effective_config w cfg = Ok cfg' ->
    kcs_answer w cfg' = Ok vk ->
    xcs_answer w cfg' = Ok vx ->
    clientset_answer w cfg' = Err err ->
    construction_failure w cfg err
      (config_calls cfg ++
       [kubernetes_NewForConfig cfg'; kubeapiext_NewForConfig cfg';
        kubernetes_NewForConfig cfg'])
| failure_DetectProvider cfg' vk vx cs err :
    effective_config w cfg = Ok cfg' ->
    kcs_answer w cfg' = Ok vk ->
    xcs_answer w cfg' = Ok vx ->
    clientset_answer w cfg' = Ok cs ->
    DetectProvider_answer w cs = Err err ->
    construction_failure w cfg err
      (config_calls cfg ++
       [kubernetes_NewForConfig cfg'; kubeapiext_NewForConfig cfg';
        kubernetes_NewForConfig cfg'; detector_DetectProvider cs])
| failure_ServerVersion cfg' vk vx cs provider err :
    effective_config w cfg = Ok cfg' ->
    kcs_answer w cfg' = Ok vk ->
    xcs_answer w cfg' = Ok vx ->
    clientset_answer w cfg' = Ok cs ->
    DetectProvider_answer w cs = Ok provider ->
    ServerVersion_answer w cs = Err err ->
    construction_failure w cfg err
      (config_calls cfg ++
       [kubernetes_NewForConfig cfg'; kubeapiext_NewForConfig cfg';
        kubernetes_NewForConfig cfg'; detector_DetectProvider cs;
        logrus_Infof ("ClusterProvider detected " +:+ provider);
        discovery_ServerVersion cs])
| failure_client cfg' vk vx cs provider ver n err :
    effective_config w cfg = Ok cfg' ->
    kcs_answer w cfg' = Ok vk ->
    xcs_answer w cfg' = Ok vx ->
    clientset_answer w cfg' = Ok cs ->
    DetectProvider_answer w cs = Ok provider ->
    ServerVersion_answer w cs = Ok ver ->
    client_failure w cfg' n err ->
    construction_failure w cfg err
      (config_calls cfg ++ take (8 + n) (client_calls cfg' cs provider (GitVersion ver))).

(** The configuration a client or factory is built from. *)
Definition config_of (c : Call) : option rest_Config :=
  match c with
  | kubernetes_NewForConfig cfg | kubeapiext_NewForConfig cfg | apply_NewForConfig cfg
  | cisoperatorctl_NewFactoryFromConfig cfg | batchctl_NewFactoryFromConfig cfg
  | corectl_NewFactoryFromConfig cfg | v1monitoringclient_NewForConfig cfg => Some cfg
  | _ => None
  end.

(** A process in which only the family of completed scans is registered. *)
Definition process_taken : Process :=
  {| defaultRegistry := {["cis_scan_num_scans_complete" := OfCounter cis_scan_num_scans_complete]};
     samples := ∅ |}.

(** A descriptor of the name of the first family, of other dimensions, and
    a process in which it is the only one registered. *)
Definition other_descriptor : Desc :=
  {| fqName := "cis_scan_num_tests_fail"; help := "Failed tests";
     variableLabels := ["cluster"] |}.

Definition process_other : Process :=
  {| defaultRegistry :=
       {["cis_scan_num_tests_fail" := OfGauge {| gaugeDesc := other_descriptor |}]};
     samples := ∅ |}.

(** The one constructor of definitions of [registerCRD], answering the
    definition of ClusterScan. *)
Definition one_constructor : list (Call * result crd_CRD) :=
  [(scan_ClusterScanCRD, Ok {| GVK_Kind := "ClusterScan" |})].

(** ** The computations, step by step *)

Lemma bind_inv {A B} (m : Run A) (k : A -> Run B) p b p' t :
  bind m k p = (b, p', t) ->
  exists a p1 t1 t2, m p = (a, p1, t1) /\ k a p1 = (b, p', t2) /\ t = (t1 ++ t2)%list.
Proof.
  unfold bind. destruct (m p) as [[a p1] t1] eqn:E1.
  destruct (k a p1) as [[b' p2] t2] eqn:E2.
  intros [= <- <- <-]. by exists a, p1, t1, t2.
Qed.

Lemma try_inv {A B} (m : Run (result A)) (h : error -> B) (k : A -> Run B) p b p' t :
  try m h k p = (b, p', t) ->
  exists p1 t1,
    (exists err, m p = (Err err, p1, t1) /\ b = h err /\ p' = p1 /\ t = t1) \/
    (exists v t2, m p = (Ok v, p1, t1) /\ k v p1 = (b, p', t2) /\ t = (t1 ++ t2)%list).
Proof.
  unfold try. intros H. apply bind_inv in H as (r & p1 & t1 & t2 & Hm & Hk & ->).
  exists p1, t1. destruct r as [v|err].
  - right. by exists v, t2.
  - left. exists err. unfold ret in Hk. injection Hk as <- <- <-.
    by rewrite app_nil_r.
Qed.

Lemma extern_eq {A} (c : Call) (a : A) p : extern c a p = (a, p, [c]).
Proof. reflexivity. Qed.

Lemma try_extern_Ok {A B} (c : Call) (v : A) (h : error -> B) (k : A -> Run B) p :
  try (extern c (Ok v)) h k p = (value (k v p), state (k v p), c :: calls (k v p)).
Proof.
  unfold try, bind, extern, value, state, calls.
  by destruct (k v p) as [[b p2] t2].
Qed.

Lemma try_ret_Ok {A B} (v : A) (h : error -> B) (k : A -> Run B) p :
  try (ret (Ok v)) h k p = k v p.
Proof.
  unfold try, bind, ret. by destruct (k v p) as [[b p2] t2].
Qed.

Lemma Register_inv w c p err p' t :
  Register w c p = (err, p', t) ->
  t = [prometheus_Register c] /\ samples p' = samples p /\
  match err with
  | None => defaultRegistry p !! fqName (describe c) = None /\
            defaultRegistry p' = <[fqName (describe c) := c]> (defaultRegistry p)
  | Some _ => is_Some (defaultRegistry p !! fqName (describe c)) /\ p' = p
  end.
Proof.
  unfold Register, register.
  destruct (defaultRegistry p !! fqName (describe c)) eqn:E.
  - destruct p. case_decide; intros [= <- <- <-]; eauto.
  - intros [= <- <- <-]. eauto.
Qed.

Ltac step H :=
  let Hcall := fresh "Hcall" in
  apply bind_inv in H as (? & ? & ? & ? & Hcall & H & ->).

Ltac registered H :=
  step H;
  match goal with
  | Hc : Register _ _ _ = _ |- _ => apply Register_inv in Hc as (-> & ? & ?)
  end;
  match type of H with
  | (match ?e with _ => _ end) _ = _ => destruct e; [ discriminate H | ]
  end.

Lemma initializeMetrics_inv w ctl p ctl' p' t :
  initializeMetrics w ctl p = ((None, ctl'), p', t) ->
  ctl' = with_metrics ctl /\
  t = map prometheus_Register registrations /\
  defaultRegistry p' = with_registered (defaultRegistry p) /\
  samples p' = samples p /\
  Forall (fun n => defaultRegistry p !! n = None) metricNames.
Proof.
  unfold initializeMetrics. intros H.
  do 6 registered H.
  unfold ret in H. injection H as <- <- <-.
  repeat match goal with
         | H : _ /\ _ |- _ => destruct H
         end.
  cbn [describe fqName NewGaugeVec NewCounterVec gaugeDesc counterDesc gName cName] in *.
  split; [reflexivity|]. split; [reflexivity|].
  split.
  { unfold with_registered, registrations, cis_scan_num_tests_fail,
      cis_scan_num_scans_complete, cis_scan_num_tests_total, cis_scan_num_tests_pass,
      cis_scan_num_tests_skipped, cis_scan_num_tests_na.
    cbn [foldl describe fqName NewGaugeVec NewCounterVec gaugeDesc counterDesc gName cName].
    congruence. }
  split; [congruence|].
  unfold metricNames.
  repeat match goal with
         | H : defaultRegistry ?x = _, H' : defaultRegistry ?x !! _ = None |- _ =>
             rewrite H in H'
         | H : <[_ := _]> _ !! _ = None |- _ =>
             apply lookup_insert_None in H as [H _]
         end.
  repeat constructor; assumption.
Qed.

Lemma detectClusterProvider_eq w cs p :
  detectClusterProvider w cs p =
  (match DetectProvider_answer w cs with
   | Ok provider => (provider, None)
   | Err err => ("", Some err)
   end, p, [detector_DetectProvider cs]).
Proof.
  unfold detectClusterProvider, bind, extern, ret.
  by destruct (DetectProvider_answer w cs).
Qed.

Lemma detectKubernetesVersion_eq w cs p :
  detectKubernetesVersion w cs p =
  (match ServerVersion_answer w cs with
   | Ok v => (GitVersion v, None)
   | Err err => ("", Some err)
   end, p, [discovery_ServerVersion cs]).
Proof.
  unfold detectKubernetesVersion, bind, extern, ret.
  by destruct (ServerVersion_answer w cs).
Qed.

Ltac tried H Hm :=
  let Hb := fresh "Hb" in
  apply try_inv in H as (? & ? & [(? & Hm & Hb & -> & ->) | (? & ? & Hm & H & ->)]);
  [ discriminate Hb | rewrite extern_eq in Hm; injection Hm as Hm <- <- ].

Lemma NewController_inv w cfg namespace name imgConfig p ctl err p' t :
  NewController w cfg namespace name imgConfig p = ((Some ctl, err), p', t) ->
  exists cfg' vk vx cs provider ver ap cf bf cof mc,
    err = None /\
    answers_ok w cfg cfg' vk vx cs provider ver ap cf bf cof mc /\
    ctl = with_metrics
            (constructed namespace name imgConfig vk vx provider (GitVersion ver)
                         ap cf bf cof mc) /\
    t = (construction_calls cfg cfg' cs provider (GitVersion ver) ++
         map prometheus_Register registrations)%list /\
    defaultRegistry p' = with_registered (defaultRegistry p) /\
    samples p' = samples p /\
    Forall (fun n => defaultRegistry p !! n = None) metricNames.
Proof.
  unfold NewController. intros H. cbv zeta in H.
  apply try_inv in H as (p0 & t0 & [(? & _ & Hb & _) | (cfg' & t1 & Hcfg & H & ->)]);
    [discriminate Hb|].
  assert (effective_config w cfg = Ok cfg' /\ p0 = p /\ t0 = config_calls cfg)
    as (Hcfg' & -> & ->).
  { destruct cfg as [c|]; cbn in *.
    - unfold ret in Hcfg. by injection Hcfg as -> <- <-.
    - rewrite extern_eq in Hcfg. by injection Hcfg as -> <- <-. }
  clear Hcfg.
  tried H Hkcs. tried H Hxcs. tried H Hcs.
  step H. rewrite detectClusterProvider_eq in Hcall. injection Hcall as <- <- <-.
  destruct (DetectProvider_answer w _) as [provider|] eqn:Hprov; [|discriminate H].
  cbn [fst snd] in H.
  step H. rewrite extern_eq in Hcall. injection Hcall as _ <- <-.
  step H. rewrite detectKubernetesVersion_eq in Hcall. injection Hcall as <- <- <-.
  destruct (ServerVersion_answer w _) as [ver|] eqn:Hver; [|discriminate H].
  cbn [fst snd] in H.
  step H. rewrite extern_eq in Hcall. injection Hcall as _ <- <-.
  tried H Hap. tried H Hcf. tried H Hbf. tried H Hcof. tried H Hmc.
  step H.
  match goal with
  | Hc : initializeMetrics _ _ _ = (?r, _, _) |- _ => destruct r as [[e|] ctl']
  end; [discriminate H|].
  unfold ret in H. cbn [fst snd] in H. injection H as <- <- <- <-.
  apply initializeMetrics_inv in Hcall
    as (-> & -> & Hreg & Hsam & Hfree).
  do 11 eexists.
  split; [done|]. split; [by econstructor|].
  split; [reflexivity|]. split.
  { unfold construction_calls. cbn. rewrite ?app_nil_r, <- ?app_assoc. reflexivity. }
  done.
Qed.

Lemma always_ret {B} (P : B -> Prop) b : P b -> always P (ret b).
Proof. intros H p. exact H. Qed.

Lemma always_bind {A B} (P : B -> Prop) (m : Run A) (k : A -> Run B) :
  (forall a, always P (k a)) -> always P (bind m k).
Proof.
  intros H p. unfold bind, value. destruct (m p) as [[a p1] t1] eqn:E1.
  specialize (H a p1). unfold value in H.
  by destruct (k a p1) as [[b p2] t2] eqn:E2.
Qed.

Lemma always_try {A B} (P : B -> Prop) (m : Run (result A)) h (k : A -> Run B) :
  (forall err, P (h err)) -> (forall v, always P (k v)) -> always P (try m h k).
Proof.
  intros Hh Hk. apply always_bind. intros [v|err]; [apply Hk|]. by apply always_ret.
Qed.

(** [NewController] answers a controller and no error, or no controller and
    an error. *)
Lemma NewController_shape w cfg namespace name imgConfig :
  always atomic (NewController w cfg namespace name imgConfig).
Proof.
  unfold NewController.
  repeat first
    [ apply always_try; [intros err; right; by eexists | intros ?]
    | apply always_bind; intros ?
    | apply always_ret
    | match goal with
      | |- always _ (match ?e with Some _ => _ | None => _ end) => destruct e
      end ];
    solve [ right; by eexists | left; by eexists ].
Qed.

(** When every answer is a success, [NewController] comes down to
    [initializeMetrics] on the constructed controller. *)
Lemma NewController_run w cfg cfg' vk vx cs provider ver ap cf bf cof mc
    namespace name imgConfig p :
  answers_ok w cfg cfg' vk vx cs provider ver ap cf bf cof mc ->
  NewController w cfg namespace name imgConfig p =
  (match value (initializeMetrics w
                  (constructed namespace name imgConfig vk vx provider (GitVersion ver)
                               ap cf bf cof mc) p) with
   | (Some err, _) => (None, Some (Errorf "Error registering CIS Metrics: " err))
   | (None, ctl) => (Some ctl, None)
   end,
   state (initializeMetrics w
            (constructed namespace name imgConfig vk vx provider (GitVersion ver)
                         ap cf bf cof mc) p),
   (construction_calls cfg cfg' cs provider (GitVersion ver) ++
    calls (initializeMetrics w
             (constructed namespace name imgConfig vk vx provider (GitVersion ver)
                          ap cf bf cof mc) p))%list).
Proof.
  intros [Hcfg Hkcs Hxcs Hcs Hprov Hver Hap Hcf Hbf Hcof Hmc].
  unfold NewController, try, construction_calls.
  unfold bind at 1.
  assert (match cfg with
          | Some cfg0 => ret (Ok cfg0)
          | None => extern rest_InClusterConfig (InClusterConfig_answer w)
          end p = (Ok cfg', p, config_calls cfg)) as ->.
  { destruct cfg; cbn in *; [by injection Hcfg as ->|].
    by rewrite extern_eq, Hcfg. }
  unfold bind at 1. rewrite extern_eq, Hkcs.
  unfold bind at 1. rewrite extern_eq, Hxcs.
  unfold bind at 1. rewrite extern_eq, Hcs.
  unfold bind at 1. rewrite detectClusterProvider_eq, Hprov. cbn [fst snd].
  unfold bind at 1. rewrite extern_eq.
  unfold bind at 1. rewrite detectKubernetesVersion_eq, Hver. cbn [fst snd].
  unfold bind at 1. rewrite extern_eq.
  unfold bind at 1. rewrite extern_eq, Hap.
  unfold bind at 1. rewrite extern_eq, Hcf.
  unfold bind at 1. rewrite extern_eq, Hbf.
  unfold bind at 1. rewrite extern_eq, Hcof.
  unfold bind at 1. rewrite extern_eq, Hmc.
  unfold bind at 1, value, state, calls, constructed.
  cbn [set_kcs set_xcs set_ClusterProvider set_KubernetesVersion set_apply_
       set_cisFactory set_batchFactory set_coreFactory set_monitoringClient
       Namespace Name ClusterProvider KubernetesVersion ImageConfig kcs xcs
       coreFactory batchFactory cisFactory apply_ monitoringClient mu
       numTestsFailed numScansComplete numTestsSkipped numTestsTotal numTestsNA
       numTestsPassed].
  destruct (initializeMetrics _ _ p) as [[[[e|] ctl'] p'] t']; unfold ret; cbn [fst snd];
    f_equal; cbn [app]; rewrite app_nil_r, <- app_assoc; reflexivity.
Qed.

Lemma with_registered_lookup r c :
  c ∈ registrations -> with_registered r !! fqName (describe c) = Some c.
Proof.
  unfold registrations. rewrite !elem_of_cons, elem_of_nil.
  unfold with_registered, registrations. cbn.
  intros [->|[->|[->|[->|[->|[->|[]]]]]]]; cbn;
    repeat first [ apply lookup_insert_eq | rewrite lookup_insert_ne by discriminate ].
Qed.

(** A process in which the first family is taken by this package's own
    collector: the first registration is refused and nothing else is tried. *)
Lemma initializeMetrics_taken w ctl p :
  defaultRegistry p !! "cis_scan_num_tests_fail" = Some (OfGauge cis_scan_num_tests_fail) ->
  initializeMetrics w ctl p =
  ((Some AlreadyRegisteredError, set_numTestsFailed (Some cis_scan_num_tests_fail) ctl),
   p, [prometheus_Register (OfGauge cis_scan_num_tests_fail)]).
Proof.
  intros H. unfold initializeMetrics, bind at 1, Register, register.
  cbn [describe fqName NewGaugeVec gaugeDesc gName]. rewrite H.
  rewrite decide_True by (split; reflexivity). by destruct p.
Qed.

Lemma initializeMetrics_run w ctl p :
  Forall (fun n => defaultRegistry p !! n = None) metricNames ->
  initializeMetrics w ctl p =
  ((None, with_metrics ctl),
   {| defaultRegistry := with_registered (defaultRegistry p); samples := samples p |},
   map prometheus_Register registrations).
Proof.
  unfold metricNames. intros H.
  repeat match goal with
         | H : Forall _ (_ :: _) |- _ => apply Forall_cons in H as [? H]
         end.
  unfold initializeMetrics.
  repeat (unfold bind at 1, Register, register;
          cbn [describe fqName NewGaugeVec NewCounterVec gaugeDesc counterDesc gName cName
               defaultRegistry samples];
          rewrite ?lookup_insert_ne by discriminate;
          match goal with
          | H : ?m !! ?k = None |- context [?m !! ?k] => rewrite H
          end).
  reflexivity.
Qed.

(** ** The metric families *)

(** C1. After [initializeMetrics] succeeded, the metric fields of the
    controller are exactly five gauge families (failed, skipped, total, not
    applicable, passed) and one counter family (scans completed), each with
    exactly the two label names scan_name and scan_profile_name, in that
    order; and the collectors registered are exactly these six fields. *)
Theorem C1_metric_families w ctl p ctl' p' t :
  initializeMetrics w ctl p = ((None, ctl'), p', t) ->
  map (fmap familyOf) (metricFields ctl') =
    [Some (Gauge, "cis_scan_num_tests_fail", ["scan_name"; "scan_profile_name"]);
     Some (Counter, "cis_scan_num_scans_complete", ["scan_name"; "scan_profile_name"]);
     Some (Gauge, "cis_scan_num_tests_skipped", ["scan_name"; "scan_profile_name"]);
     Some (Gauge, "cis_scan_num_tests_total", ["scan_name"; "scan_profile_name"]);
     Some (Gauge, "cis_scan_num_tests_na", ["scan_name"; "scan_profile_name"]);
     Some (Gauge, "cis_scan_num_tests_pass", ["scan_name"; "scan_profile_name"])] /\
  length t = 6%nat /\
  (forall c, prometheus_Register c ∈ t <-> Some c ∈ metricFields ctl').
Proof.
  intros H. apply initializeMetrics_inv in H as (-> & -> & _).
  split; [reflexivity|]. split; [reflexivity|].
  intros c. unfold registrations, with_metrics, metricFields. cbn.
  rewrite !elem_of_cons, !elem_of_nil.
  split; intros H; repeat destruct H as [H|H]; try done;
    injection H as ->; tauto.
Qed.

Lemma C1_metric_families_witness :
  initializeMetrics world_ok blank fresh =
    ((None, with_metrics blank),
     {| defaultRegistry := with_registered ∅; samples := ∅ |},
     map prometheus_Register registrations) /\
  map (fmap familyOf) (metricFields (with_metrics blank)) =
    [Some (Gauge, "cis_scan_num_tests_fail", ["scan_name"; "scan_profile_name"]);
     Some (Counter, "cis_scan_num_scans_complete", ["scan_name"; "scan_profile_name"]);
     Some (Gauge, "cis_scan_num_tests_skipped", ["scan_name"; "scan_profile_name"]);
     Some (Gauge, "cis_scan_num_tests_total", ["scan_name"; "scan_profile_name"]);
     Some (Gauge, "cis_scan_num_tests_na", ["scan_name"; "scan_profile_name"]);
     Some (Gauge, "cis_scan_num_tests_pass", ["scan_name"; "scan_profile_name"])].
Proof.
  assert (initializeMetrics world_ok blank fresh =
          ((None, with_metrics blank),
           {| defaultRegistry := with_registered ∅; samples := ∅ |},
           map prometheus_Register registrations)) as H by (vm_compute; reflexivity).
  split; [exact H|].
  exact (proj1 (C1_metric_families world_ok blank fresh _ _ _ H)).
Defined.

(** ** Error handling of [NewController] *)

(** C8. [NewController] never answers a controller together with an error,
    nor neither of them; when any of its steps fails it answers the nil
    controller and an error; and a controller it answers has every client,
    factory, collector and the mutex assigned. *)
Theorem C8_NewController_atomic w cfg namespace name imgConfig p :
  atomic (value (NewController w cfg namespace name imgConfig p)) /\
  (step_fails w cfg p ->
   exists err, value (NewController w cfg namespace name imgConfig p) = (None, Some err)) /\
  (forall ctl err,
     value (NewController w cfg namespace name imgConfig p) = (Some ctl, err) ->
     fully_initialized ctl).
Proof.
  split; [apply NewController_shape|]. split; cycle 1.
  { intros ctl err H.
    destruct (NewController w cfg namespace name imgConfig p) as [[[c e] p'] t] eqn:E.
    unfold value in H. cbn in H. injection H as -> ->.
    apply NewController_inv in E
      as (cfg' & vk & vx & cs & provider & ver & ap & cf & bf & cof & mc & _ & _ & -> & _).
    unfold fully_initialized, metricFields. cbn.
    repeat split; repeat constructor; by eexists. }
  intros Hfail.
  destruct (NewController_shape w cfg namespace name imgConfig p) as [[ctl H]|H]; [|exact H].
  exfalso.
  destruct (NewController w cfg namespace name imgConfig p) as [[[c e] p'] t] eqn:E.
  unfold value in H. cbn in H. injection H as -> ->.
  apply NewController_inv in E
    as (cfg' & vk & vx & cs & provider & ver & ap & cf & bf & cof & mc & _ & Hok & _ & _ & _ & _ & Hfree).
  destruct Hok.
  destruct Hfail;
    repeat match goal with
           | H1 : effective_config w cfg = _, H2 : effective_config w cfg = _ |- _ =>
               rewrite H1 in H2; try discriminate H2; injection H2 as <-
           | H1 : clientset_answer w cfg' = _, H2 : clientset_answer w cfg' = _ |- _ =>
               rewrite H1 in H2; injection H2 as <-
           end; try congruence.
  rewrite Forall_forall in Hfree.
  match goal with
  | Hn : _ ∈ metricNames, Hs : is_Some _ |- _ =>
      apply Hfree in Hn; rewrite Hn in Hs; by destruct Hs
  end.
Qed.

Lemma C8_NewController_atomic_witness :
  step_fails world_no_provider None fresh /\
  exists err,
    value (NewController world_no_provider None "cis-operator-system" "cis-operator" None fresh)
    = (None, Some err).
Proof.
  assert (step_fails world_no_provider None fresh) as H.
  { eapply fails_DetectProvider; reflexivity. }
  split; [exact H|].
  exact (proj1 (proj2 (C8_NewController_atomic world_no_provider None
                         "cis-operator-system" "cis-operator" None fresh)) H).
Defined.

(** C9. Given a nil configuration, [NewController] asks for the in-cluster
    one and goes on with it; when that lookup fails, it answers nil and
    that very error, having made no other call (no client constructed, no
    metric registered) and having left the process state alone. *)
Theorem C9_nil_config w namespace name imgConfig p :
  (forall err,
     InClusterConfig_answer w = Err err ->
     NewController w None namespace name imgConfig p =
       ((None, Some err), p, [rest_InClusterConfig]) /\
     count is_client_construction (calls (NewController w None namespace name imgConfig p))
       = 0%nat /\
     count is_Register (calls (NewController w None namespace name imgConfig p)) = 0%nat) /\
  (forall cfg,
     InClusterConfig_answer w = Ok cfg ->
     NewController w None namespace name imgConfig p =
       (value (NewController w (Some cfg) namespace name imgConfig p),
        state (NewController w (Some cfg) namespace name imgConfig p),
        rest_InClusterConfig :: calls (NewController w (Some cfg) namespace name imgConfig p))).
Proof.
  split.
  - intros err H.
    assert (NewController w None namespace name imgConfig p =
            ((None, Some err), p, [rest_InClusterConfig])) as ->; [|done].
    unfold NewController, try, bind at 1. by rewrite extern_eq, H.
  - intros cfg H. unfold NewController. cbv iota.
    by rewrite H, try_extern_Ok, !try_ret_Ok.
Qed.

Lemma C9_nil_config_witness :
  InClusterConfig_answer world_outside =
    Err "unable to load in-cluster configuration, KUBERNETES_SERVICE_HOST and KUBERNETES_SERVICE_PORT must be defined" /\
  NewController world_outside None "cis-operator-system" "cis-operator" None fresh =
    ((None, Some "unable to load in-cluster configuration, KUBERNETES_SERVICE_HOST and KUBERNETES_SERVICE_PORT must be defined"),
     fresh, [rest_InClusterConfig]).
Proof.
  split; [reflexivity|].
  apply (proj1 (C9_nil_config world_outside "cis-operator-system" "cis-operator" None fresh)).
  reflexivity.
Defined.

Example nil_config_in_cluster :
  NewController world_ok None "cis-operator-system" "cis-operator" None fresh =
  (value (NewController world_ok (Some a_config) "cis-operator-system" "cis-operator" None fresh),
   state (NewController world_ok (Some a_config) "cis-operator-system" "cis-operator" None fresh),
   rest_InClusterConfig ::
   calls (NewController world_ok (Some a_config) "cis-operator-system" "cis-operator" None fresh)).
Proof. vm_compute. reflexivity. Qed.

(** ** A first controller in a fresh process *)

Example NewController_world_ok :
  NewController world_ok None "cis-operator-system" "cis-operator" None fresh
  = ((Some ctl_ok, None), process_ok, calls_ok).
Proof. vm_compute. reflexivity. Qed.

(** ** The controller that [NewController] answers *)

Lemma NewController_registered w cfg namespace name imgConfig p ctl err p' t :
  NewController w cfg namespace name imgConfig p = ((Some ctl, err), p', t) ->
  Forall (registered_in p') (metricFields ctl).
Proof.
  intros H. apply NewController_inv in H
    as (cfg' & vk & vx & cs & provider & ver & ap & cf & bf & cof & mc &
        _ & _ & -> & _ & Hreg & _).
  unfold metricFields, with_metrics, constructed. cbn.
  repeat constructor; eexists; (split; [reflexivity|]);
    rewrite Hreg; apply with_registered_lookup;
    unfold registrations; rewrite !elem_of_cons; tauto.
Qed.

(** C10. A controller answered by [NewController] has a mutex, and each of
    its six metric fields holds a collector that is registered. *)
Theorem C10_controller_invariant w cfg namespace name imgConfig p ctl err p' t :
  NewController w cfg namespace name imgConfig p = ((Some ctl, err), p', t) ->
  is_Some (mu ctl) /\
  length (metricFields ctl) = 6%nat /\
  Forall (registered_in p') (metricFields ctl).
Proof.
  intros H. split; [|split; [reflexivity|]].
  - apply NewController_inv in H
      as (cfg' & vk & vx & cs & provider & ver & ap & cf & bf & cof & mc &
          _ & _ & -> & _).
    by eexists.
  - eapply NewController_registered, H.
Qed.

Lemma C10_controller_invariant_witness :
  NewController world_ok None "cis-operator-system" "cis-operator" None fresh
    = ((Some ctl_ok, None), process_ok, calls_ok) /\
  is_Some (mu ctl_ok) /\
  length (metricFields ctl_ok) = 6%nat /\
  Forall (registered_in process_ok) (metricFields ctl_ok).
Proof.
  split; [exact NewController_world_ok|].
  exact (C10_controller_invariant _ _ _ _ _ _ _ _ _ _ NewController_world_ok).
Defined.

(** ** [Controller.Start] *)

(** C6. [Start] registers the five handlers (jobs, pods, cluster scans,
    scheduled cluster scans, cluster-scan metrics) in that order and then
    starts the factories, answering what [start.All] answers; or, at the
    first handler that fails, it answers that handler's error, having
    registered the handlers up to that one and never started the
    factories. *)
Theorem C6_Start_handlers w c threads resync p :
  state (Start w c threads resync p) = p /\
  ((Forall (eq None) (handlerAnswers w c) /\
    calls (Start w c threads resync p) =
      (handlerCalls ++ [start_All threads (cisFactory c) (coreFactory c) (batchFactory c)])%list /\
    value (Start w c threads resync p) = start_All_answer w c) \/
   (exists n err,
      handlerAnswers w c !! n = Some (Some err) /\
      (forall m, (m < n)%nat -> handlerAnswers w c !! m = Some None) /\
      value (Start w c threads resync p) = Some err /\
      calls (Start w c threads resync p) = take (S n) handlerCalls /\
      count is_start_All (calls (Start w c threads resync p)) = 0%nat)).
Proof.
  unfold Start, handlerAnswers, state, calls, value, bind, extern, ret.
  destruct (handleJobs_answer w c) as [e1|] eqn:E1; cbn;
    [split; [reflexivity|]; right; exists 0%nat, e1; repeat split; intros; lia|].
  destruct (handlePods_answer w c) as [e2|] eqn:E2; cbn;
    [split; [reflexivity|]; right; exists 1%nat, e2; repeat split;
     intros [|m] ?; [reflexivity|lia]|].
  destruct (handleClusterScans_answer w c) as [e3|] eqn:E3; cbn;
    [split; [reflexivity|]; right; exists 2%nat, e3; repeat split;
     intros [|[|m]] ?; try reflexivity; lia|].
  destruct (handleScheduledClusterScans_answer w c) as [e4|] eqn:E4; cbn;
    [split; [reflexivity|]; right; exists 3%nat, e4; repeat split;
     intros [|[|[|m]]] ?; try reflexivity; lia|].
  destruct (handleClusterScanMetrics_answer w c) as [e5|] eqn:E5; cbn;
    [split; [reflexivity|]; right; exists 4%nat, e5; repeat split;
     intros [|[|[|[|m]]]] ?; try reflexivity; lia|].
  split; [reflexivity|]. left. repeat split. repeat constructor.
Qed.

Lemma C6_Start_handlers_witness :
  state (Start world_no_pods blank 2 7200 fresh) = fresh /\
  value (Start world_no_pods blank 2 7200 fresh) = Some "pods handler: not registered" /\
  calls (Start world_no_pods blank 2 7200 fresh) = [c_handleJobs; c_handlePods].
Proof.
  destruct (C6_Start_handlers world_no_pods blank 2 7200 fresh) as [Hs _].
  split; [exact Hs|]. split; reflexivity.
Defined.

Example Start_world_ok :
  Start world_ok blank 2 7200 fresh =
  (None, fresh,
   [c_handleJobs; c_handlePods; c_handleClusterScans; c_handleScheduledClusterScans;
    c_handleClusterScanMetrics; start_All 2 None None None]).
Proof. reflexivity. Qed.

(** ** [registerCRD] *)

Lemma registerCRD_eq w c p :
  registerCRD w c p =
  match ClusterScanCRD_answer w with
  | Err err =>
      (Some err, p, [crd_NewFactoryFromClientGetter (xcs c); scan_ClusterScanCRD])
  | Ok crdef =>
      (BatchWait_answer w [crdef], p,
       [crd_NewFactoryFromClientGetter (xcs c); scan_ClusterScanCRD;
        factory_BatchCreateCRDs [crdef]; factory_BatchWait])
  end.
Proof.
  unfold registerCRD, try, collectCRDs, bind, extern, ret.
  by destruct (ClusterScanCRD_answer w).
Qed.

Lemma count_app f (t1 t2 : list Call) :
  count f (t1 ++ t2) = (count f t1 + count f t2)%nat.
Proof. induction t1 as [|c t1 IH]; cbn; [reflexivity|]. rewrite IH. lia. Qed.

(** ** The registry is the one of the process *)

(** C4, as stated, fails: a first [NewController] answers a controller; a
    second one, in the same process and with every client built, answers
    nil and the error of a duplicate registration. *)
Lemma C4_counterexample :
  NewController world_ok None "cis-operator-system" "cis-operator" None fresh
    = ((Some ctl_ok, None), process_ok, calls_ok) /\
  value (NewController world_ok None "cis-operator-system" "cis-operator-2" None process_ok)
    = (None, Some "Error registering CIS Metrics: duplicate metrics collector registration attempted").
Proof. split; vm_compute; reflexivity. Qed.

(** C4, amended. The collectors built by [NewController] are held by the
    controller it answers and registered in the registry of the process;
    once a [NewController] has answered a controller, any further
    [NewController] in that process answers nil and an error, and when
    all its clients are built that error is the one of the duplicate
    registration of the first family, after which nothing else is
    registered. *)
Theorem C4_registry_is_process_wide w1 cfg1 namespace1 name1 imgConfig1 p ctl1 err1 p1 t1 :
  NewController w1 cfg1 namespace1 name1 imgConfig1 p = ((Some ctl1, err1), p1, t1) ->
  Forall (registered_in p1) (metricFields ctl1) /\
  forall w2 cfg2 namespace2 name2 imgConfig2,
    (exists err,
       value (NewController w2 cfg2 namespace2 name2 imgConfig2 p1) = (None, Some err)) /\
    (forall cfg' vk vx cs provider ver ap cf bf cof mc,
       answers_ok w2 cfg2 cfg' vk vx cs provider ver ap cf bf cof mc ->
       NewController w2 cfg2 namespace2 name2 imgConfig2 p1 =
         ((None, Some (Errorf "Error registering CIS Metrics: " AlreadyRegisteredError)),
          p1,
          (construction_calls cfg2 cfg' cs provider (GitVersion ver) ++
           [prometheus_Register (OfGauge cis_scan_num_tests_fail)])%list)).
Proof.
  intros H.
  split; [eapply NewController_registered, H|].
  apply NewController_inv in H
    as (cfg' & vk & vx & cs & provider & ver & ap & cf & bf & cof & mc &
        _ & _ & _ & _ & Hreg & _).
  assert (defaultRegistry p1 !! "cis_scan_num_tests_fail"
          = Some (OfGauge cis_scan_num_tests_fail)) as Htaken.
  { rewrite Hreg.
    apply (with_registered_lookup _ (OfGauge cis_scan_num_tests_fail)).
    unfold registrations. rewrite !elem_of_cons. tauto. }
  intros w2 cfg2 namespace2 name2 imgConfig2. split.
  - destruct (NewController_shape w2 cfg2 namespace2 name2 imgConfig2 p1)
      as [[ctl2 H2]|H2]; [exfalso|exact H2].
    destruct (NewController w2 cfg2 namespace2 name2 imgConfig2 p1)
      as [[[c e] p2] t2] eqn:E.
    unfold value in H2. cbn in H2. injection H2 as -> ->.
    apply NewController_inv in E
      as (? & ? & ? & ? & ? & ? & ? & ? & ? & ? & ? & _ & _ & _ & _ & _ & _ & Hfree).
    apply Forall_cons in Hfree as [Hfree _]. congruence.
  - intros cfg2' vk2 vx2 cs2 provider2 ver2 ap2 cf2 bf2 cof2 mc2 Hok.
    rewrite (NewController_run _ _ _ _ _ _ _ _ _ _ _ _ _ _ _ _ _ Hok).
    by rewrite initializeMetrics_taken.
Qed.

Lemma C4_registry_is_process_wide_witness :
  NewController world_ok None "cis-operator-system" "cis-operator" None fresh
    = ((Some ctl_ok, None), process_ok, calls_ok) /\
  Forall (registered_in process_ok) (metricFields ctl_ok) /\
  exists err,
    value (NewController world_ok None "cis-operator-system" "cis-operator-2" None process_ok)
    = (None, Some err).
Proof.
  split; [exact NewController_world_ok|].
  destruct (C4_registry_is_process_wide _ _ _ _ _ _ _ _ _ _ NewController_world_ok)
    as [Hreg Hsecond].
  split; [exact Hreg|].
  exact (proj1 (Hsecond world_ok None "cis-operator-system" "cis-operator-2" None)).
Defined.

(** ** Recording completed scans *)

Lemma Record_with_metrics c0 key s q :
  exists q',
    Record_ (with_metrics c0) key s q = (Some tt, q', []) /\
    defaultRegistry q' = defaultRegistry q /\
    summaryAt key q' = Some s /\
    completedAt key q' = completedAt key q + 1 /\
    (forall k, k ≠ key ->
       summaryAt k q' = summaryAt k q /\ completedAt k q' = completedAt k q).
Proof.
  eexists. split; [reflexivity|]. split; [reflexivity|].
  unfold summaryAt, completedAt. cbn.
  split; [|split].
  - repeat (rewrite lookup_insert_eq || rewrite lookup_insert_ne by discriminate).
    by destruct s.
  - repeat (rewrite lookup_insert_eq || rewrite lookup_insert_ne by discriminate).
    reflexivity.
  - intros k Hk.
    rewrite !lookup_insert_ne by congruence. done.
Qed.

Lemma lastSummary_cons key r rs d :
  lastSummary key (r :: rs) d =
  lastSummary key rs (if decide (r.1 = key) then Some r.2 else d).
Proof.
  unfold lastSummary, recordingsOf. rewrite filter_cons.
  case_decide; [|reflexivity].
  destruct (filter _ rs) as [|r' l]; [reflexivity|].
  rewrite last_cons_cons.
  destruct (last (r' :: l)) eqn:E; [reflexivity|].
  apply last_None in E. discriminate E.
Qed.

Lemma recordAll_with_metrics c0 rs q :
  exists q',
    recordAll (with_metrics c0) rs q = (Some tt, q', []) /\
    defaultRegistry q' = defaultRegistry q /\
    forall key,
      summaryAt key q' = lastSummary key rs (summaryAt key q) /\
      completedAt key q' = completedAt key q + Z.of_nat (length (recordingsOf key rs)).
Proof.
  revert q. induction rs as [|[k s] rs IH]; intros q.
  - exists q. split; [reflexivity|]. split; [reflexivity|].
    intros key. cbn. split; [reflexivity|lia].
  - destruct (Record_with_metrics c0 k s q) as (q1 & Hrec & Hreg1 & Hsum & Hcnt & Hother).
    destruct (IH q1) as (q' & Hall & Hreg & Hkeys).
    exists q'. split; [|split; [congruence|]].
    + cbn [recordAll fst snd]. unfold bind. rewrite Hrec, Hall. reflexivity.
    + intros key. destruct (Hkeys key) as [Hs Hc].
      rewrite lastSummary_cons, Hs, Hc. unfold recordingsOf. rewrite filter_cons.
      cbn [fst snd]. case_decide as Hk.
      * subst k. rewrite Hsum, Hcnt. cbn [length]. split; [reflexivity|lia].
      * destruct (Hother key) as [-> ->]; [congruence|]. done.
Qed.

(** C5. On a controller answered by [NewController], the five values of a
    completed scan go to collectors of the gauge kind and the count of
    completed scans to one of the counter kind.  A recording replaces the
    five gauges of its key by the values of its summary, whatever they were,
    and adds one to the count of its key; other keys keep theirs.  After any
    run of recordings the gauges of a key are those of the latest recording
    for it, and its count has grown by the number of recordings for it, so
    it never decreases. *)
Theorem C5_record_gauges_and_counter w cfg namespace name imgConfig p ctl err p' t :
  NewController w cfg namespace name imgConfig p = ((Some ctl, err), p', t) ->
  map (fmap kind) (metricFields ctl) =
    [Some Gauge; Some Counter; Some Gauge; Some Gauge; Some Gauge; Some Gauge] /\
  (forall key s q,
     exists q',
       Record_ ctl key s q = (Some tt, q', []) /\
       summaryAt key q' = Some s /\
       completedAt key q' = completedAt key q + 1 /\
       (forall k, k ≠ key ->
          summaryAt k q' = summaryAt k q /\ completedAt k q' = completedAt k q)) /\
  (forall rs q,
     exists q',
       recordAll ctl rs q = (Some tt, q', []) /\
       forall key,
         summaryAt key q' = lastSummary key rs (summaryAt key q) /\
         completedAt key q' = completedAt key q + Z.of_nat (length (recordingsOf key rs)) /\
         completedAt key q <= completedAt key q').
Proof.
  intros H. apply NewController_inv in H
    as (cfg' & vk & vx & cs & provider & ver & ap & cf & bf & cof & mc &
        _ & _ & -> & _).
  split; [reflexivity|]. split.
  - intros key s q.
    destruct (Record_with_metrics
                (constructed namespace name imgConfig vk vx provider (GitVersion ver)
                             ap cf bf cof mc) key s q)
      as (q' & Hrec & _ & Hsum & Hcnt & Hother).
    by exists q'.
  - intros rs q.
    destruct (recordAll_with_metrics
                (constructed namespace name imgConfig vk vx provider (GitVersion ver)
                             ap cf bf cof mc) rs q)
      as (q' & Hall & _ & Hkeys).
    exists q'. split; [exact Hall|].
    intros key. destruct (Hkeys key) as [Hs Hc]. repeat split; [exact Hs|exact Hc|lia].
Qed.

Example scenario_recorded :
  let q := state (Record_ ctl_ok ("manual", "P") scenario_summary process_ok) in
  summaryAt ("manual", "P") q = Some scenario_summary /\
  completedAt ("manual", "P") process_ok = 0 /\
  completedAt ("manual", "P") q = 1.
Proof. vm_compute. repeat split. Qed.

Lemma C5_record_gauges_and_counter_witness :
  NewController world_ok None "cis-operator-system" "cis-operator" None fresh
    = ((Some ctl_ok, None), process_ok, calls_ok) /\
  exists q',
    Record_ ctl_ok ("manual", "P") scenario_summary process_ok = (Some tt, q', []) /\
    summaryAt ("manual", "P") q' = Some scenario_summary /\
    completedAt ("manual", "P") q' = completedAt ("manual", "P") process_ok + 1.
Proof.
  split; [exact NewController_world_ok|].
  destruct (C5_record_gauges_and_counter _ _ _ _ _ _ _ _ _ _ NewController_world_ok)
    as (_ & Hone & _).
  destruct (Hone ("manual", "P") scenario_summary process_ok) as (q' & H1 & H2 & H3 & _).
  by exists q'.
Defined.

(** ** [initializeMetrics] when a registration is refused *)

Lemma Register_refused w c p err p' t :
  Register w c p = (Some err, p', t) ->
  exists c0,
    defaultRegistry p !! fqName (describe c) = Some c0 /\
    err = (if decide (same_dimensions (describe c0) (describe c))
           then AlreadyRegisteredError
           else Register_refusal w (describe c0) (describe c)).
Proof.
  unfold Register, register.
  destruct (defaultRegistry p !! fqName (describe c)) as [c0|]; [|discriminate].
  exists c0. split; [reflexivity|].
  destruct (decide (same_dimensions (describe c0) (describe c))); by injection H.
Qed.

Ltac registered_or_refused H :=
  step H;
  match goal with
  | Hc : Register _ _ _ = (?e, _, _) |- _ =>
      let Herr := fresh "Herr" in
      destruct e as [?|];
      [ pose proof (Register_refused _ _ _ _ _ _ Hc) as (? & ? & Herr) | ];
      apply Register_inv in Hc as (-> & ? & ? & ?)
  end.

Ltac registry_facts :=
  cbn [describe fqName NewGaugeVec NewCounterVec gaugeDesc counterDesc gName cName] in *;
  repeat match goal with
         | H : defaultRegistry ?x = _, H' : context [defaultRegistry ?x !! _] |- _ =>
             rewrite H in H'
         | H : <[_ := _]> _ !! _ = None |- _ =>
             apply lookup_insert_None in H as [H _]
         | H : is_Some (<[_ := _]> _ !! _) |- _ =>
             rewrite lookup_insert_ne in H by discriminate
         | H : <[_ := _]> _ !! _ = Some _ |- _ =>
             rewrite lookup_insert_ne in H by discriminate
         end.

Ltac refused_at H k :=
  exists k; do 2 eexists;
  split; [reflexivity|];
  split; [eassumption|];
  split; [repeat constructor; assumption|];
  split; [reflexivity|];
  split; [unfold registered_all; cbn [take foldl registrations describe fqName];
          repeat match goal with
                 | H : defaultRegistry ?x = _ |- context [defaultRegistry ?x] => rewrite H
                 end; reflexivity|];
  split; [congruence|];
  split; [reflexivity|first [eassumption|reflexivity]].

Ltac refused H :=
  unfold ret in H; injection H as <- <- <-; subst; registry_facts;
  first [ solve [refused_at H 0%nat] | solve [refused_at H 1%nat]
        | solve [refused_at H 2%nat] | solve [refused_at H 3%nat]
        | solve [refused_at H 4%nat] | solve [refused_at H 5%nat] ].

(** X1. [initializeMetrics] does not undo what it did: when the registration
    of its [k]-th collector (counting from zero) is refused because the name
    is taken, the [k] collectors before it stay registered, the collectors
    after it are neither built nor registered, the controller keeps the
    [k+1] assignments made, and the error is the one of the registry: that
    of a duplicate registration when the collector held under the name has
    the same dimensions, what the registry prints for the descriptor
    otherwise. *)
Theorem initializeMetrics_refused w ctl p err ctl' p' t :
  initializeMetrics w ctl p = ((Some err, ctl'), p', t) ->
  exists k c c0,
    registrations !! k = Some c /\
    defaultRegistry p !! fqName (describe c) = Some c0 /\
    Forall (fun c' => defaultRegistry p !! fqName (describe c') = None)
           (take k registrations) /\
    t = map prometheus_Register (take (S k) registrations) /\
    defaultRegistry p' = registered_all (take k registrations) (defaultRegistry p) /\
    samples p' = samples p /\
    ctl' = assigned_all (take (S k) assignments) ctl /\
    err = (if decide (same_dimensions (describe c0) (describe c))
           then AlreadyRegisteredError
           else Register_refusal w (describe c0) (describe c)).
Proof.
  unfold initializeMetrics. intros H.
  do 6 (registered_or_refused H; [refused H|]).
  discriminate H.
Qed.

(** ** [NewController], call by call *)

Lemma try_extern {A B} (c : Call) (a : result A) (h : error -> B) (k : A -> Run B) p :
  try (extern c a) h k p =
  match a with
  | Ok v => prepend c (k v p)
  | Err err => (h err, p, [c])
  end.
Proof.
  destruct a as [v|err]; [apply try_extern_Ok|reflexivity].
Qed.

Lemma bind_extern {A B} (c : Call) (a : A) (k : A -> Run B) p :
  bind (extern c a) k p = prepend c (k a p).
Proof.
  unfold bind, extern, prepend, value, state, calls.
  by destruct (k a p) as [[b p2] t2].
Qed.

Lemma bind_detectClusterProvider {B} w cs (k : string * option error -> Run B) p :
  bind (detectClusterProvider w cs) k p =
  prepend (detector_DetectProvider cs)
    (k match DetectProvider_answer w cs with
       | Ok provider => (provider, None)
       | Err err => ("", Some err)
       end p).
Proof.
  unfold bind at 1. rewrite detectClusterProvider_eq.
  unfold prepend, value, state, calls.
  by destruct (k _ p) as [[b p2] t2].
Qed.

Lemma bind_detectKubernetesVersion {B} w cs (k : string * option error -> Run B) p :
  bind (detectKubernetesVersion w cs) k p =
  prepend (discovery_ServerVersion cs)
    (k match ServerVersion_answer w cs with
       | Ok v => (GitVersion v, None)
       | Err err => ("", Some err)
       end p).
Proof.
  unfold bind at 1. rewrite detectKubernetesVersion_eq.
  unfold prepend, value, state, calls.
  by destruct (k _ p) as [[b p2] t2].
Qed.

(** [NewController] once the configuration is known. *)
Lemma NewController_config w cfg cfg' namespace name imgConfig p :
  effective_config w cfg = Ok cfg' ->
  NewController w cfg namespace name imgConfig p =
  (value (NewController w (Some cfg') namespace name imgConfig p),
   state (NewController w (Some cfg') namespace name imgConfig p),
   (config_calls cfg ++ calls (NewController w (Some cfg') namespace name imgConfig p))%list).
Proof.
  destruct cfg as [c|]; cbn [effective_config config_calls app].
  - intros [= ?]. subst.
    match goal with |- ?x = _ => by destruct x as [[? ?] ?] end.
  - intros H. unfold NewController. cbv iota.
    by rewrite H, try_extern_Ok, !try_ret_Ok.
Qed.

Ltac run_calls :=
  repeat first
    [ rewrite try_extern
    | rewrite bind_extern
    | rewrite bind_detectClusterProvider
    | rewrite bind_detectKubernetesVersion
    | match goal with
      | H : _ = Ok _ |- _ => rewrite H
      | H : _ = Err _ |- _ => rewrite H
      end
    | progress cbn [fst snd] ].

(** X2. When a call of [NewController] before [initializeMetrics] fails,
    [NewController] answers nil and the error of that call: as it is for the
    in-cluster lookup, the three clientsets, the two detections and
    [apply.NewForConfig], behind a fixed prefix for the three factories and
    the monitoring client.  It made the calls up to the failing one and no
    other, and it left the process state as it was. *)
Theorem NewController_construction_failure w cfg namespace name imgConfig p err t :
  construction_failure w cfg err t ->
  NewController w cfg namespace name imgConfig p = ((None, Some err), p, t).
Proof.
  intros Hfail.
  destruct Hfail as [err -> Herr| | | | | |cfg' vk vx cs provider ver n err ? ? ? ? ? ? Hclient];
    [unfold NewController; cbv iota; by rewrite try_extern, Herr|..];
    rewrite (NewController_config w cfg cfg') by assumption;
    match goal with
    | |- (value ?X, state ?X, (_ ++ calls ?X)%list) = (?v, ?q, (_ ++ ?t)%list) =>
        enough (X = (v, q, t)) as -> by reflexivity
    end;
    unfold NewController; cbv iota zeta; rewrite try_ret_Ok;
    [..|destruct Hclient];
    run_calls; reflexivity.
Qed.

(** Either every answer [NewController] asks for is a success, or one of
    its calls before [initializeMetrics] fails first. *)
Lemma construction_cases w cfg :
  (exists cfg' vk vx cs provider ver ap cf bf cof mc,
     answers_ok w cfg cfg' vk vx cs provider ver ap cf bf cof mc) \/
  (exists err t, construction_failure w cfg err t).
Proof.
  destruct (effective_config w cfg) as [cfg'|err] eqn:Hcfg; cycle 1.
  { right. destruct cfg as [c|]; [discriminate Hcfg|].
    exists err, [rest_InClusterConfig]. by apply failure_InClusterConfig. }
  destruct (kcs_answer w cfg') as [vk|err] eqn:Hkcs; cycle 1.
  { right. do 2 eexists. by eapply failure_kcs. }
  destruct (xcs_answer w cfg') as [vx|err] eqn:Hxcs; cycle 1.
  { right. do 2 eexists. by eapply failure_xcs. }
  destruct (clientset_answer w cfg') as [cs|err] eqn:Hcs; cycle 1.
  { right. do 2 eexists. by eapply failure_clientset. }
  destruct (DetectProvider_answer w cs) as [provider|err] eqn:Hprov; cycle 1.
  { right. do 2 eexists. by eapply failure_DetectProvider. }
  destruct (ServerVersion_answer w cs) as [ver|err] eqn:Hver; cycle 1.
  { right. do 2 eexists. by eapply failure_ServerVersion. }
  destruct (apply_answer w cfg') as [ap|err] eqn:Hap; cycle 1.
  { right. do 2 eexists. eapply failure_client; try eassumption.
    by eapply failure_apply. }
  destruct (cisFactory_answer w cfg') as [cf|err] eqn:Hcf; cycle 1.
  { right. do 2 eexists. eapply failure_client; try eassumption.
    by eapply failure_cisFactory. }
  destruct (batchFactory_answer w cfg') as [bf|err] eqn:Hbf; cycle 1.
  { right. do 2 eexists. eapply failure_client; try eassumption.
    by eapply failure_batchFactory. }
  destruct (coreFactory_answer w cfg') as [cof|err] eqn:Hcof; cycle 1.
  { right. do 2 eexists. eapply failure_client; try eassumption.
    by eapply failure_coreFactory. }
  destruct (monitoringClient_answer w cfg') as [mc|err] eqn:Hmc; cycle 1.
  { right. do 2 eexists. eapply failure_client; try eassumption.
    by eapply failure_monitoringClient. }
  left. exists cfg', vk, vx, cs, provider, ver, ap, cf, bf, cof, mc. by constructor.
Qed.

Lemma construction_failure_no_Register w cfg err t :
  construction_failure w cfg err t -> Forall (fun c => is_Register c = false) t.
Proof.
  intros [| | | | | |? ? ? ? ? ? ? ? ? ? ? ? ? ? Hclient];
    try (apply Forall_app; split; [destruct cfg; repeat constructor|]);
    try destruct Hclient; repeat constructor.
Qed.

Lemma count_zero f (t : list Call) :
  Forall (fun c => f c = false) t -> count f t = 0%nat.
Proof. induction 1 as [|c t Hc _ IH]; cbn; [reflexivity|]. by rewrite Hc, IH. Qed.

Lemma count_pos f (t : list Call) c : c ∈ t -> f c = true -> (0 < count f t)%nat.
Proof.
  induction 1 as [c t|c c' t _ IH]; cbn; intros Hc; [rewrite Hc; lia|].
  specialize (IH Hc). lia.
Qed.

(** X3. [NewController] registers no metric and leaves the process state
    as it was unless every client was built and both detections succeeded. *)
Theorem NewController_registers_last w cfg namespace name imgConfig p :
  (exists c, prometheus_Register c ∈ calls (NewController w cfg namespace name imgConfig p)) \/
  state (NewController w cfg namespace name imgConfig p) ≠ p ->
  exists cfg' vk vx cs provider ver ap cf bf cof mc,
    answers_ok w cfg cfg' vk vx cs provider ver ap cf bf cof mc.
Proof.
  intros H. destruct (construction_cases w cfg) as [Hok|(err & t & Hfail)]; [exact Hok|].
  exfalso.
  rewrite (NewController_construction_failure _ _ namespace name imgConfig p _ _ Hfail) in H.
  destruct H as [[c Hc]|Hp]; [|by apply Hp].
  apply construction_failure_no_Register, count_zero in Hfail.
  apply (count_pos is_Register) in Hc; [|reflexivity].
  unfold calls in Hc. cbn in Hc. lia.
Qed.

(** The converse of X1: the first taken name decides where
    [initializeMetrics] stops. *)
Lemma initializeMetrics_refused_at w ctl p k c c0 :
  registrations !! k = Some c ->
  defaultRegistry p !! fqName (describe c) = Some c0 ->
  Forall (fun c' => defaultRegistry p !! fqName (describe c') = None)
         (take k registrations) ->
  initializeMetrics w ctl p =
  ((Some (if decide (same_dimensions (describe c0) (describe c))
          then AlreadyRegisteredError
          else Register_refusal w (describe c0) (describe c)),
    assigned_all (take (S k) assignments) ctl),
   {| defaultRegistry := registered_all (take k registrations) (defaultRegistry p);
      samples := samples p |},
   map prometheus_Register (take (S k) registrations)).
Proof.
  intros Hk Htaken Hfree.
  destruct (initializeMetrics w ctl p) as [[[[err|] ctl'] p'] t] eqn:E.
  - apply initializeMetrics_refused in E
      as (k' & c' & c0' & Hk' & Htaken' & Hfree' & -> & Hreg & Hsam & -> & ->).
    assert (k' = k) as ->.
    { destruct (lt_eq_lt_dec k' k) as [[Hlt|Heq]|Hlt]; [exfalso|exact Heq|exfalso].
      - assert (c' ∈ take k registrations) as Hin by (apply elem_of_take; eauto).
        rewrite Forall_forall in Hfree. apply Hfree in Hin. congruence.
      - assert (c ∈ take k' registrations) as Hin by (apply elem_of_take; eauto).
        rewrite Forall_forall in Hfree'. apply Hfree' in Hin. congruence. }
    assert (c' = c) as -> by congruence.
    assert (c0' = c0) as -> by congruence.
    destruct p' as [r s]. cbn in Hreg, Hsam. by subst.
  - exfalso. apply initializeMetrics_inv in E as (_ & _ & _ & _ & Hnames).
    assert (fqName (describe c) ∈ metricNames) as Hin.
    { change metricNames
        with ((fun x : Collector => fqName (describe x)) <$> registrations).
      apply (list_elem_of_fmap_2 (fun x : Collector => fqName (describe x))).
      by eapply list_elem_of_lookup_2. }
    rewrite Forall_forall in Hnames. apply Hnames in Hin. congruence.
Qed.

(** X4. When every client is built but the name of one of the six families
    is taken, [NewController] answers nil and the error of the registry
    behind "Error registering CIS Metrics: " (that of a duplicate
    registration when the collector held under the name has the same
    dimensions, what the registry prints for the descriptor otherwise),
    having registered the families that come before the first taken one;
    these stay registered. *)
Theorem NewController_metrics_refused w cfg cfg' vk vx cs provider ver ap cf bf cof mc
    namespace name imgConfig p k c c0 :
  answers_ok w cfg cfg' vk vx cs provider ver ap cf bf cof mc ->
  registrations !! k = Some c ->
  defaultRegistry p !! fqName (describe c) = Some c0 ->
  Forall (fun c' => defaultRegistry p !! fqName (describe c') = None)
         (take k registrations) ->
  NewController w cfg namespace name imgConfig p =
  ((None,
    Some (Errorf "Error registering CIS Metrics: "
            (if decide (same_dimensions (describe c0) (describe c))
             then AlreadyRegisteredError
             else Register_refusal w (describe c0) (describe c)))),
   {| defaultRegistry := registered_all (take k registrations) (defaultRegistry p);
      samples := samples p |},
   (construction_calls cfg cfg' cs provider (GitVersion ver) ++
    map prometheus_Register (take (S k) registrations))%list).
Proof.
  intros Hok Hk Htaken Hfree.
  rewrite (NewController_run _ _ _ _ _ _ _ _ _ _ _ _ _ _ _ _ _ Hok).
  rewrite (initializeMetrics_refused_at w _ p k c c0 Hk Htaken Hfree). reflexivity.
Qed.

Lemma registered_all_snoc cs c r :
  registered_all (cs ++ [c]) r = <[fqName (describe c) := c]> (registered_all cs r).
Proof. unfold registered_all. by rewrite foldl_snoc. Qed.

(** Registering collectors whose names are free keeps what was registered. *)
Lemma registered_all_keeps cs r n x :
  Forall (fun c => r !! fqName (describe c) = None) cs ->
  r !! n = Some x -> registered_all cs r !! n = Some x.
Proof.
  induction cs as [|c cs IH] using rev_ind; intros Hfree Hn; [exact Hn|].
  apply Forall_app in Hfree as [Hcs Hc]. apply Forall_cons in Hc as [Hc _].
  rewrite registered_all_snoc, lookup_insert_ne; [by apply IH|].
  intros <-. congruence.
Qed.

(** What is registered afterwards and was not before is one of them. *)
Lemma registered_all_new cs r n :
  r !! n = None -> is_Some (registered_all cs r !! n) ->
  n ∈ (fun c : Collector => fqName (describe c)) <$> cs.
Proof.
  induction cs as [|c cs IH] using rev_ind; intros Hn Hs.
  - cbn in Hs. rewrite Hn in Hs. by destruct Hs.
  - rewrite fmap_app, elem_of_app. rewrite registered_all_snoc in Hs.
    destruct (decide (fqName (describe c) = n)) as [<-|Hne].
    + right. cbn. apply list_elem_of_here.
    + left. rewrite lookup_insert_ne in Hs by exact Hne. by apply IH.
Qed.

Lemma registered_all_first k r :
  (0 < k)%nat ->
  registered_all (take k registrations) r !! "cis_scan_num_tests_fail"
  = Some (OfGauge cis_scan_num_tests_fail).
Proof.
  intros Hpos.
  destruct k as [|[|[|[|[|[|k]]]]]]; [lia|..];
    unfold registered_all, registrations; cbn [take]; rewrite ?take_nil; cbn;
    rewrite ?lookup_insert_ne by discriminate; apply lookup_insert_eq.
Qed.

(** A process in which the first family is registered never gets a
    controller. *)
Lemma NewController_name_taken w cfg namespace name imgConfig p :
  is_Some (defaultRegistry p !! "cis_scan_num_tests_fail") ->
  exists err, value (NewController w cfg namespace name imgConfig p) = (None, Some err).
Proof.
  intros Htaken.
  destruct (NewController_shape w cfg namespace name imgConfig p) as [[ctl H]|H];
    [exfalso|exact H].
  destruct (NewController w cfg namespace name imgConfig p) as [[[c e] p'] t] eqn:E.
  unfold value in H. cbn in H. injection H as -> ->.
  apply NewController_inv in E
    as (? & ? & ? & ? & ? & ? & ? & ? & ? & ? & ? & _ & _ & _ & _ & _ & _ & Hfree).
  apply Forall_cons in Hfree as [Hfree _]. rewrite Hfree in Htaken. by destruct Htaken.
Qed.

(** Where [initializeMetrics] leaves the registry, whatever it answers. *)
Lemma initializeMetrics_registry w ctl p :
  exists k,
    Forall (fun c => defaultRegistry p !! fqName (describe c) = None)
           (take k registrations) /\
    defaultRegistry (state (initializeMetrics w ctl p))
      = registered_all (take k registrations) (defaultRegistry p) /\
    samples (state (initializeMetrics w ctl p)) = samples p /\
    (exists n, calls (initializeMetrics w ctl p)
               = map prometheus_Register (take n registrations)).
Proof.
  destruct (initializeMetrics w ctl p) as [[[[err|] ctl'] p'] t] eqn:E.
  - apply initializeMetrics_refused in E
      as (k & c & c0 & Hk & _ & Hfree & -> & Hreg & Hsam & _ & _).
    exists k. repeat split; try assumption. by exists (S k).
  - apply initializeMetrics_inv in E as (_ & -> & Hreg & Hsam & Hfree).
    exists (length registrations). rewrite firstn_all. repeat split; try assumption.
    + change metricNames
        with ((fun x : Collector => fqName (describe x)) <$> registrations) in Hfree.
      by apply Forall_fmap in Hfree.
    + exists (length registrations). by rewrite firstn_all.
Qed.

(** X5. Once a [NewController] has changed the registry of the process,
    whether it answered a controller or failed while registering, no
    [NewController] in that process answers a controller again. *)
Theorem NewController_no_second_chance w1 cfg1 namespace1 name1 imgConfig1 p :
  defaultRegistry (state (NewController w1 cfg1 namespace1 name1 imgConfig1 p))
    ≠ defaultRegistry p ->
  forall w2 cfg2 namespace2 name2 imgConfig2,
  exists err,
    value (NewController w2 cfg2 namespace2 name2 imgConfig2
             (state (NewController w1 cfg1 namespace1 name1 imgConfig1 p)))
    = (None, Some err).
Proof.
  intros Hchanged w2 cfg2 namespace2 name2 imgConfig2.
  apply NewController_name_taken.
  destruct (construction_cases w1 cfg1)
    as [(cfg' & vk & vx & cs & provider & ver & ap & cf & bf & cof & mc & Hok)
       |(err & t & Hfail)].
  - rewrite (NewController_run _ _ _ _ _ _ _ _ _ _ _ _ _ _ _ _ _ Hok) in *.
    unfold state at 1 in Hchanged. unfold state at 1. cbn [fst snd] in *.
    destruct (initializeMetrics_registry w1
                (constructed namespace1 name1 imgConfig1 vk vx provider (GitVersion ver)
                             ap cf bf cof mc) p)
      as (k & _ & Hreg & _).
    rewrite Hreg in *.
    destruct k as [|k]; [by destruct Hchanged|].
    eexists. apply registered_all_first. lia.
  - rewrite (NewController_construction_failure _ _ namespace1 name1 imgConfig1 p _ _ Hfail)
      in Hchanged.
    by destruct Hchanged.
Qed.

(** The outcome of [NewController] is that of a failed construction, with
    the state as it was, or rests on [initializeMetrics]. *)
Lemma NewController_state_calls w cfg namespace name imgConfig p :
  (state (NewController w cfg namespace name imgConfig p) = p /\
   exists err, construction_failure w cfg err
                 (calls (NewController w cfg namespace name imgConfig p))) \/
  (exists cfg' cs provider ver k n,
     effective_config w cfg = Ok cfg' /\
     Forall (fun c => defaultRegistry p !! fqName (describe c) = None)
            (take k registrations) /\
     defaultRegistry (state (NewController w cfg namespace name imgConfig p))
       = registered_all (take k registrations) (defaultRegistry p) /\
     samples (state (NewController w cfg namespace name imgConfig p)) = samples p /\
     calls (NewController w cfg namespace name imgConfig p)
       = (construction_calls cfg cfg' cs provider (GitVersion ver) ++
          map prometheus_Register (take n registrations))%list).
Proof.
  destruct (construction_cases w cfg)
    as [(cfg' & vk & vx & cs & provider & ver & ap & cf & bf & cof & mc & Hok)
       |(err & t & Hfail)].
  - right.
    rewrite (NewController_run _ _ _ _ _ _ _ _ _ _ _ _ _ _ _ _ _ Hok).
    destruct (initializeMetrics_registry w
                (constructed namespace name imgConfig vk vx provider (GitVersion ver)
                             ap cf bf cof mc) p)
      as (k & Hfree & Hreg & Hsam & n & Hcalls).
    exists cfg', cs, provider, ver, k, n.
    unfold state at 1 2, calls at 1. cbn [fst snd].
    rewrite Hcalls. repeat split; try assumption. by destruct Hok.
  - left.
    rewrite (NewController_construction_failure _ _ namespace name imgConfig p _ _ Hfail).
    split; [reflexivity|]. by exists err.
Qed.

(** X6. Whatever [NewController] answers, it leaves the samples of the
    process alone, keeps every collector that was registered, and registers
    nothing under a name other than those of the six families. *)
Theorem NewController_keeps_registry w cfg namespace name imgConfig p :
  samples (state (NewController w cfg namespace name imgConfig p)) = samples p /\
  (forall n c,
     defaultRegistry p !! n = Some c ->
     defaultRegistry (state (NewController w cfg namespace name imgConfig p)) !! n = Some c) /\
  (forall n,
     defaultRegistry p !! n = None ->
     is_Some (defaultRegistry (state (NewController w cfg namespace name imgConfig p)) !! n) ->
     n ∈ metricNames).
Proof.
  destruct (NewController_state_calls w cfg namespace name imgConfig p)
    as [[-> _]|(cfg' & cs & provider & ver & k & m & _ & Hfree & -> & -> & _)].
  - split; [reflexivity|]. split; [tauto|].
    intros n Hn Hs. rewrite Hn in Hs. by destruct Hs.
  - split; [reflexivity|]. split.
    + intros n c. by apply registered_all_keeps.
    + intros n Hn Hs. apply registered_all_new in Hs; [|exact Hn].
      change metricNames
        with ((fun x : Collector => fqName (describe x)) <$> registrations).
      apply list_elem_of_fmap in Hs as (c & -> & Hc).
      apply (list_elem_of_fmap_2 (fun x : Collector => fqName (describe x))).
      by apply subseteq_take in Hc.
Qed.

Lemma construction_failure_config w cfg err t :
  construction_failure w cfg err t ->
  Forall (fun c =>
            (forall cfg'', config_of c = Some cfg'' -> effective_config w cfg = Ok cfg'') /\
            (c = rest_InClusterConfig -> cfg = None)) t.
Proof.
  intros [? -> ?| | | | | |? ? ? ? ? ? ? ? ? ? ? ? ? ? Hclient];
    try (apply Forall_app; split;
         [destruct cfg; repeat constructor; cbn; discriminate|]);
    try destruct Hclient;
    repeat constructor; cbn; try discriminate; by intros ? [= <-].
Qed.

(** X7. Every clientset, the apply client, the three factories and the
    monitoring client are built from one configuration: the one given, or
    the in-cluster one when none is given; and the in-cluster lookup is made
    only when none is given. *)
Theorem NewController_one_config w cfg namespace name imgConfig p c :
  c ∈ calls (NewController w cfg namespace name imgConfig p) ->
  (forall cfg'', config_of c = Some cfg'' -> effective_config w cfg = Ok cfg'') /\
  (c = rest_InClusterConfig -> cfg = None).
Proof.
  intros Hc. revert c Hc. apply Forall_forall.
  destruct (NewController_state_calls w cfg namespace name imgConfig p)
    as [[_ [err Hfail]]|(cfg' & cs & provider & ver & k & n & Hcfg & _ & _ & _ & ->)].
  - by eapply construction_failure_config.
  - unfold construction_calls. rewrite <- app_assoc.
    apply Forall_app; split; [destruct cfg; repeat constructor; cbn; discriminate|].
    apply Forall_app; split.
    + repeat constructor; cbn; try discriminate; by intros ? [= <-].
    + apply Forall_fmap, Forall_true. intros x. cbn. split; discriminate.
Qed.

(** X8. The controller [NewController] answers holds the namespace, the
    name and the image configuration it was given, an unlocked mutex, and
    the clients and factories that the constructors answered for the
    configuration in use. *)
Theorem NewController_fields w cfg namespace name imgConfig p ctl err p' t :
  NewController w cfg namespace name imgConfig p = ((Some ctl, err), p', t) ->
  Namespace ctl = namespace /\ Name ctl = name /\ ImageConfig ctl = imgConfig /\
  mu ctl = Some {| locked := false |} /\
  exists cfg' vk vx ap cf bf cof mc,
    effective_config w cfg = Ok cfg' /\
    kcs_answer w cfg' = Ok vk /\ kcs ctl = Some vk /\
    xcs_answer w cfg' = Ok vx /\ xcs ctl = Some vx /\
    apply_answer w cfg' = Ok ap /\ apply_ ctl = Some ap /\
    cisFactory_answer w cfg' = Ok cf /\ cisFactory ctl = Some cf /\
    batchFactory_answer w cfg' = Ok bf /\ batchFactory ctl = Some bf /\
    coreFactory_answer w cfg' = Ok cof /\ coreFactory ctl = Some cof /\
    monitoringClient_answer w cfg' = Ok mc /\ monitoringClient ctl = Some mc.
Proof.
  intros H. apply NewController_inv in H
    as (cfg' & vk & vx & cs & provider & ver & ap & cf & bf & cof & mc &
        _ & Hok & -> & _).
  destruct Hok. repeat (split; [reflexivity|]).
  exists cfg', vk, vx, ap, cf, bf, cof, mc. by repeat split.
Qed.



(** ** The loop of [registerCRD] *)

(** X10. The loop over the constructors of definitions calls them in order;
    when all succeed it answers the definitions it was given followed by
    theirs, in order; at the first that fails it answers that error, and
    the constructors after it are not called. *)
Theorem collectCRDs_loop (pre post : list (Call * result crd_CRD)) (ds crds : list crd_CRD) p :
  Forall2 (fun fn d => fn.2 = Ok d) pre ds ->
  collectCRDs (map (fun fn => extern fn.1 fn.2) pre) crds p
    = (Ok (crds ++ ds)%list, p, map fst pre) /\
  (forall c err,
     collectCRDs (map (fun fn => extern fn.1 fn.2) (pre ++ (c, Err err) :: post)) crds p
     = (Err err, p, (map fst pre ++ [c])%list)).
Proof.
  intros H. revert crds. induction H as [|[c0 a] d pre ds Hd _ IH]; intros crds.
  - split; [by rewrite app_nil_r|]. intros c err. reflexivity.
  - cbn in Hd. subst a. destruct (IH (crds ++ [d])%list) as [IH1 IH2].
    split.
    + cbn [map collectCRDs fst snd]. rewrite bind_extern, IH1.
      unfold prepend, value, state, calls. cbn. by rewrite <- app_assoc.
    + intros c err. cbn [map app collectCRDs fst snd]. rewrite bind_extern, IH2.
      reflexivity.
Qed.

(** ** When [NewController] answers a controller *)

(** X11. [NewController] answers a controller exactly when every answer it
    asks for is a success and none of the names of the six families is
    registered in the process. *)
Theorem NewController_succeeds_iff w cfg namespace name imgConfig p :
  (exists ctl, value (NewController w cfg namespace name imgConfig p) = (Some ctl, None)) <->
  (exists cfg' vk vx cs provider ver ap cf bf cof mc,
     answers_ok w cfg cfg' vk vx cs provider ver ap cf bf cof mc) /\
  Forall (fun n => defaultRegistry p !! n = None) metricNames.
Proof.
  split.
  - intros [ctl H].
    destruct (NewController w cfg namespace name imgConfig p) as [[[c e] p'] t] eqn:E.
    unfold value in H. cbn in H. injection H as -> ->.
    apply NewController_inv in E
      as (cfg' & vk & vx & cs & provider & ver & ap & cf & bf & cof & mc &
          _ & Hok & _ & _ & _ & _ & Hfree).
    split; [|exact Hfree]. by exists cfg', vk, vx, cs, provider, ver, ap, cf, bf, cof, mc.
  - intros [(cfg' & vk & vx & cs & provider & ver & ap & cf & bf & cof & mc & Hok) Hfree].
    rewrite (NewController_run _ _ _ _ _ _ _ _ _ _ _ _ _ _ _ _ _ Hok).
    rewrite initializeMetrics_run by exact Hfree. by eexists.
Qed.

(** ** Detection of the provider and of the version *)

Lemma count_Register f (cs : list Collector) :
  (forall c, f (prometheus_Register c) = false) ->
  count f (map prometheus_Register cs) = 0%nat.
Proof.
  intros Hf. apply count_zero, Forall_fmap, Forall_true. intros c. apply Hf.
Qed.

Lemma count_config_calls f cfg :
  f rest_InClusterConfig = false -> count f (config_calls cfg) = 0%nat.
Proof. intros Hf. destruct cfg; cbn; [reflexivity|]. by rewrite Hf. Qed.

Lemma elem_of_config_calls c cfg : c ∈ config_calls cfg -> c = rest_InClusterConfig.
Proof.
  destruct cfg; cbn; [by rewrite elem_of_nil|]. by rewrite list_elem_of_singleton.
Qed.

Lemma construction_failure_detection w cfg err t :
  construction_failure w cfg err t ->
  (count is_DetectProvider t <= 1)%nat /\
  (count is_ServerVersion t <= 1)%nat /\
  (forall cs,
     discovery_ServerVersion cs ∈ t ->
     exists provider,
       DetectProvider_answer w cs = Ok provider /\ detector_DetectProvider cs ∈ t).
Proof.
  intros [| | | | | |? ? ? ? ? ? ? ? ? ? ? ? ? ? Hclient];
    try destruct Hclient;
    rewrite ?count_app, ?count_config_calls by reflexivity; cbn;
    (split; [lia|]); (split; [lia|]);
    intros cs' Hin;
    rewrite ?elem_of_app, ?elem_of_cons, ?elem_of_nil in Hin;
    repeat match goal with
           | H : _ \/ _ |- _ => destruct H
           | H : _ ∈ config_calls _ |- _ => apply elem_of_config_calls in H
           | H : False |- _ => destruct H
           | H : discovery_ServerVersion _ = _ |- _ =>
               first [discriminate H | injection H as ->]
           end;
    eexists; (split; [eassumption|]);
    rewrite ?elem_of_app, ?elem_of_cons; tauto.
Qed.

(** X12. In any run of [NewController] the provider and the version are
    each detected at most once, and the version only through a clientset
    through which the provider was detected with success.  In a run that
    answers a controller each is detected exactly once, through one
    clientset, and the controller holds what was detected. *)
Theorem NewController_detects_once w cfg namespace name imgConfig p :
  (count is_DetectProvider (calls (NewController w cfg namespace name imgConfig p)) <= 1)%nat /\
  (count is_ServerVersion (calls (NewController w cfg namespace name imgConfig p)) <= 1)%nat /\
  (forall cs,
     discovery_ServerVersion cs ∈ calls (NewController w cfg namespace name imgConfig p) ->
     exists provider,
       DetectProvider_answer w cs = Ok provider /\
       detector_DetectProvider cs ∈ calls (NewController w cfg namespace name imgConfig p)) /\
  (forall ctl err,
     value (NewController w cfg namespace name imgConfig p) = (Some ctl, err) ->
     count is_DetectProvider (calls (NewController w cfg namespace name imgConfig p)) = 1%nat /\
     count is_ServerVersion (calls (NewController w cfg namespace name imgConfig p)) = 1%nat /\
     exists cs ver,
       detector_DetectProvider cs ∈ calls (NewController w cfg namespace name imgConfig p) /\
       discovery_ServerVersion cs ∈ calls (NewController w cfg namespace name imgConfig p) /\
       DetectProvider_answer w cs = Ok (ClusterProvider ctl) /\
       ServerVersion_answer w cs = Ok ver /\
       KubernetesVersion ctl = GitVersion ver).
Proof.
  assert (forall ctl err,
     value (NewController w cfg namespace name imgConfig p) = (Some ctl, err) ->
     count is_DetectProvider (calls (NewController w cfg namespace name imgConfig p)) = 1%nat /\
     count is_ServerVersion (calls (NewController w cfg namespace name imgConfig p)) = 1%nat /\
     exists cs ver,
       detector_DetectProvider cs ∈ calls (NewController w cfg namespace name imgConfig p) /\
       discovery_ServerVersion cs ∈ calls (NewController w cfg namespace name imgConfig p) /\
       DetectProvider_answer w cs = Ok (ClusterProvider ctl) /\
       ServerVersion_answer w cs = Ok ver /\
       KubernetesVersion ctl = GitVersion ver) as Hsuccess.
  { intros ctl err H.
    destruct (NewController w cfg namespace name imgConfig p) as [[[c e] p'] t] eqn:E.
    unfold value in H. cbn in H. injection H as -> ->.
    apply NewController_inv in E
      as (cfg' & vk & vx & cs & provider & ver & ap & cf & bf & cof & mc &
          _ & Hok & -> & -> & _).
    destruct Hok. unfold calls, construction_calls. cbn [snd].
    rewrite !count_app, !count_config_calls, !count_Register by reflexivity.
    split; [reflexivity|]. split; [reflexivity|].
    exists cs, ver. rewrite !elem_of_app, !elem_of_cons. cbn. tauto. }
  destruct (construction_cases w cfg)
    as [(cfg' & vk & vx & cs & provider & ver & ap & cf & bf & cof & mc & Hok)
       |(err & t & Hfail)].
  - rewrite (NewController_run _ _ _ _ _ _ _ _ _ _ _ _ _ _ _ _ _ Hok) in *.
    destruct (initializeMetrics_registry w
                (constructed namespace name imgConfig vk vx provider (GitVersion ver)
                             ap cf bf cof mc) p)
      as (_ & _ & _ & _ & n & Hcalls).
    rewrite Hcalls in *. clear Hcalls.
    unfold calls in *. cbn [snd] in *.
    split; [|split; [|split; [|exact Hsuccess]]].
    { unfold construction_calls.
      rewrite !count_app, !count_config_calls, !count_Register by reflexivity.
      cbn. lia. }
    { unfold construction_calls.
      rewrite !count_app, !count_config_calls, !count_Register by reflexivity.
      cbn. lia. }
    unfold construction_calls.
    intros cs' Hin. destruct Hok.
    rewrite !elem_of_app, !elem_of_cons, elem_of_nil in Hin.
    assert (cs' = cs) as ->.
    { destruct Hin as [[Hin|Hin]|Hin].
      - apply elem_of_config_calls in Hin. discriminate Hin.
      - repeat destruct Hin as [Hin|Hin]; try discriminate Hin; try (by destruct Hin).
        by injection Hin.
      - apply list_elem_of_fmap in Hin as (x & Hx & _). discriminate Hx. }
    exists provider. split; [assumption|].
    rewrite !elem_of_app, !elem_of_cons. tauto.
  - rewrite (NewController_construction_failure _ _ namespace name imgConfig p _ _ Hfail) in *.
    destruct (construction_failure_detection _ _ _ _ Hfail) as (H1 & H2 & H3).
    unfold calls. cbn [snd]. by repeat split.
Qed.

(** ** [registerCRD], from the first call to the answer *)

(** X13. [registerCRD] answers nil only when the definition of ClusterScan
    was built, was created in a batch holding that one definition, and the
    wait for the batch answered nil.  When the definition cannot be built
    it answers that error without creating a batch.  It leaves the process
    state alone. *)
Theorem registerCRD_waits w c p :
  state (registerCRD w c p) = p /\
  (value (registerCRD w c p) = None ->
   exists crdef,
     ClusterScanCRD_answer w = Ok crdef /\
     BatchWait_answer w [crdef] = None /\
     calls (registerCRD w c p) =
       [crd_NewFactoryFromClientGetter (xcs c); scan_ClusterScanCRD;
        factory_BatchCreateCRDs [crdef]; factory_BatchWait]) /\
  (forall err,
     ClusterScanCRD_answer w = Err err ->
     value (registerCRD w c p) = Some err /\
     calls (registerCRD w c p) =
       [crd_NewFactoryFromClientGetter (xcs c); scan_ClusterScanCRD]).
Proof.
  rewrite registerCRD_eq.
  destruct (ClusterScanCRD_answer w) as [crdef|err0]; cbn.
  - split; [reflexivity|]. split; [|discriminate].
    intros H. by exists crdef.
  - split; [reflexivity|]. split; [discriminate|].
    by intros err [= <-].
Qed.

(** ** The further statements at concrete inputs *)

Lemma answers_ok_world_ok :
  answers_ok world_ok None a_config {| kcs_cfg := a_config |} {| xcs_cfg := a_config |}
    {| kcs_cfg := a_config |} "k3s" {| GitVersion := "v1.20.4+k3s1" |}
    {| apply_cfg := a_config |} {| cis_cfg := a_config |} {| batch_cfg := a_config |}
    {| core_cfg := a_config |} {| monitoring_cfg := a_config |}.
Proof. by constructor. Qed.

Lemma initializeMetrics_refused_witness :
  initializeMetrics world_ok blank process_taken =
    ((Some AlreadyRegisteredError, assigned_all (take 2 assignments) blank),
     {| defaultRegistry :=
          registered_all (take 1 registrations) (defaultRegistry process_taken);
        samples := ∅ |},
     map prometheus_Register (take 2 registrations)) /\
  exists k c c0,
    registrations !! k = Some c /\
    defaultRegistry process_taken !! fqName (describe c) = Some c0 /\
    Forall (fun c' => defaultRegistry process_taken !! fqName (describe c') = None)
           (take k registrations) /\
    AlreadyRegisteredError =
      (if decide (same_dimensions (describe c0) (describe c))
       then AlreadyRegisteredError
       else Register_refusal world_ok (describe c0) (describe c)).
Proof.
  assert (initializeMetrics world_ok blank process_taken =
    ((Some AlreadyRegisteredError, assigned_all (take 2 assignments) blank),
     {| defaultRegistry :=
          registered_all (take 1 registrations) (defaultRegistry process_taken);
        samples := ∅ |},
     map prometheus_Register (take 2 registrations))) as H by (vm_compute; reflexivity).
  split; [exact H|].
  destruct (initializeMetrics_refused _ _ _ _ _ _ _ H)
    as (k & c & c0 & H1 & H2 & H3 & _ & _ & _ & _ & H4).
  by exists k, c, c0.
Defined.

Example initializeMetrics_refused_other :
  value (initializeMetrics world_ok blank process_other) =
    (Some (Register_refusal world_ok other_descriptor (gaugeDesc cis_scan_num_tests_fail)),
     set_numTestsFailed (Some cis_scan_num_tests_fail) blank) /\
  state (initializeMetrics world_ok blank process_other) = process_other.
Proof. vm_compute. split; reflexivity. Qed.

Lemma NewController_construction_failure_witness :
  construction_failure world_no_provider None
    "the server is currently unable to handle the request"
    [rest_InClusterConfig; kubernetes_NewForConfig a_config; kubeapiext_NewForConfig a_config;
     kubernetes_NewForConfig a_config; detector_DetectProvider {| kcs_cfg := a_config |}] /\
  NewController world_no_provider None "cis-operator-system" "cis-operator" None fresh =
    ((None, Some "the server is currently unable to handle the request"), fresh,
     [rest_InClusterConfig; kubernetes_NewForConfig a_config; kubeapiext_NewForConfig a_config;
      kubernetes_NewForConfig a_config; detector_DetectProvider {| kcs_cfg := a_config |}]).
Proof.
  assert (construction_failure world_no_provider None
    "the server is currently unable to handle the request"
    [rest_InClusterConfig; kubernetes_NewForConfig a_config; kubeapiext_NewForConfig a_config;
     kubernetes_NewForConfig a_config; detector_DetectProvider {| kcs_cfg := a_config |}])
    as H.
  { exact (failure_DetectProvider world_no_provider None a_config
             {| kcs_cfg := a_config |} {| xcs_cfg := a_config |} {| kcs_cfg := a_config |}
             _ eq_refl eq_refl eq_refl eq_refl eq_refl). }
  split; [exact H|].
  exact (NewController_construction_failure _ _ _ _ _ _ _ _ H).
Defined.

Lemma NewController_registers_last_witness :
  (exists c,
     prometheus_Register c
     ∈ calls (NewController world_ok None "cis-operator-system" "cis-operator" None fresh)) /\
  exists cfg' vk vx cs provider ver ap cf bf cof mc,
    answers_ok world_ok None cfg' vk vx cs provider ver ap cf bf cof mc.
Proof.
  assert (exists c,
     prometheus_Register c
     ∈ calls (NewController world_ok None "cis-operator-system" "cis-operator" None fresh))
    as H.
  { exists (OfGauge cis_scan_num_tests_fail). rewrite NewController_world_ok.
    unfold calls, calls_ok, construction_calls, registrations. cbn.
    rewrite !elem_of_cons. tauto. }
  split; [exact H|].
  exact (NewController_registers_last _ _ _ _ _ _ (or_introl H)).
Defined.

Lemma NewController_metrics_refused_witness :
  registrations !! 1%nat = Some (OfCounter cis_scan_num_scans_complete) /\
  defaultRegistry process_taken !! "cis_scan_num_scans_complete"
    = Some (OfCounter cis_scan_num_scans_complete) /\
  NewController world_ok None "cis-operator-system" "cis-operator" None process_taken =
  ((None, Some (Errorf "Error registering CIS Metrics: " AlreadyRegisteredError)),
   {| defaultRegistry :=
        registered_all (take 1 registrations) (defaultRegistry process_taken);
      samples := samples process_taken |},
   (construction_calls None a_config {| kcs_cfg := a_config |} "k3s" "v1.20.4+k3s1" ++
    map prometheus_Register (take 2 registrations))%list).
Proof.
  assert (defaultRegistry process_taken !! "cis_scan_num_scans_complete"
          = Some (OfCounter cis_scan_num_scans_complete)) as H
    by (vm_compute; reflexivity).
  split; [reflexivity|]. split; [exact H|].
  apply (NewController_metrics_refused world_ok None a_config _ _ _ _
           {| GitVersion := "v1.20.4+k3s1" |} _ _ _ _ _ _ _ _ process_taken 1
           (OfCounter cis_scan_num_scans_complete) (OfCounter cis_scan_num_scans_complete)
           answers_ok_world_ok eq_refl H).
  repeat constructor.
Defined.

Lemma NewController_no_second_chance_witness :
  defaultRegistry
    (state (NewController world_ok None "cis-operator-system" "cis-operator" None process_taken))
    ≠ defaultRegistry process_taken /\
  exists err,
    value (NewController world_ok None "cis-operator-system" "cis-operator" None
             (state (NewController world_ok None "cis-operator-system" "cis-operator" None
                       process_taken)))
    = (None, Some err).
Proof.
  assert (defaultRegistry
    (state (NewController world_ok None "cis-operator-system" "cis-operator" None process_taken))
    ≠ defaultRegistry process_taken) as H.
  { intros H. apply (f_equal (fun r => r !! "cis_scan_num_tests_fail")) in H.
    vm_compute in H. discriminate H. }
  split; [exact H|].
  exact (NewController_no_second_chance _ _ _ _ _ _ H world_ok None
           "cis-operator-system" "cis-operator" None).
Defined.

Lemma NewController_keeps_registry_witness :
  defaultRegistry process_taken !! "cis_scan_num_scans_complete"
    = Some (OfCounter cis_scan_num_scans_complete) /\
  defaultRegistry
    (state (NewController world_ok None "cis-operator-system" "cis-operator" None process_taken))
    !! "cis_scan_num_scans_complete" = Some (OfCounter cis_scan_num_scans_complete).
Proof.
  assert (defaultRegistry process_taken !! "cis_scan_num_scans_complete"
          = Some (OfCounter cis_scan_num_scans_complete)) as H by (vm_compute; reflexivity).
  split; [exact H|].
  exact (proj1 (proj2 (NewController_keeps_registry world_ok None
                         "cis-operator-system" "cis-operator" None process_taken)) _ _ H).
Defined.

Lemma NewController_one_config_witness :
  kubeapiext_NewForConfig a_config
    ∈ calls (NewController world_ok None "cis-operator-system" "cis-operator" None fresh) /\
  effective_config world_ok None = Ok a_config.
Proof.
  assert (kubeapiext_NewForConfig a_config
    ∈ calls (NewController world_ok None "cis-operator-system" "cis-operator" None fresh))
    as H.
  { rewrite NewController_world_ok.
    unfold calls, calls_ok, construction_calls. cbn. rewrite !elem_of_cons. tauto. }
  split; [exact H|].
  exact (proj1 (NewController_one_config _ _ _ _ _ _ _ H) a_config eq_refl).
Defined.

Lemma NewController_fields_witness :
  NewController world_ok None "cis-operator-system" "cis-operator" None fresh
    = ((Some ctl_ok, None), process_ok, calls_ok) /\
  Namespace ctl_ok = "cis-operator-system" /\ Name ctl_ok = "cis-operator" /\
  ImageConfig ctl_ok = None /\ mu ctl_ok = Some {| locked := false |}.
Proof.
  split; [exact NewController_world_ok|].
  destruct (NewController_fields _ _ _ _ _ _ _ _ _ _ NewController_world_ok)
    as (H1 & H2 & H3 & H4 & _).
  by repeat split.
Defined.


Lemma collectCRDs_loop_witness :
  Forall2 (fun fn d => fn.2 = Ok d) one_constructor [{| GVK_Kind := "ClusterScan" |}] /\
  collectCRDs (map (fun fn => extern fn.1 fn.2) one_constructor) [] fresh
    = (Ok [{| GVK_Kind := "ClusterScan" |}], fresh, [scan_ClusterScanCRD]) /\
  collectCRDs
    (map (fun fn => extern fn.1 fn.2)
         (one_constructor ++ [(scan_ClusterScanCRD, Err "not generated")])) [] fresh
    = (Err "not generated", fresh, [scan_ClusterScanCRD; scan_ClusterScanCRD]).
Proof.
  assert (Forall2 (fun fn d => fn.2 = Ok d) one_constructor
            [{| GVK_Kind := "ClusterScan" |}]) as H by (repeat constructor).
  split; [exact H|].
  destruct (collectCRDs_loop one_constructor [] _ [] fresh H) as [H1 H2].
  split; [exact H1|exact (H2 scan_ClusterScanCRD "not generated")].
Defined.

Lemma NewController_succeeds_iff_witness :
  Forall (fun n => defaultRegistry fresh !! n = None) metricNames /\
  exists ctl,
    value (NewController world_ok None "cis-operator-system" "cis-operator" None fresh)
    = (Some ctl, None).
Proof.
  assert (Forall (fun n => defaultRegistry fresh !! n = None) metricNames) as H
    by (repeat constructor).
  split; [exact H|].
  apply (proj2 (NewController_succeeds_iff world_ok None
                  "cis-operator-system" "cis-operator" None fresh)).
  split; [|exact H].
  do 11 eexists. exact answers_ok_world_ok.
Defined.

Lemma NewController_detects_once_witness :
  NewController world_ok None "cis-operator-system" "cis-operator" None fresh
    = ((Some ctl_ok, None), process_ok, calls_ok) /\
  count is_DetectProvider calls_ok = 1%nat /\
  count is_ServerVersion calls_ok = 1%nat /\
  ClusterProvider ctl_ok = "k3s" /\
  KubernetesVersion ctl_ok = "v1.20.4+k3s1".
Proof.
  split; [exact NewController_world_ok|].
  destruct (NewController_detects_once world_ok None
              "cis-operator-system" "cis-operator" None fresh) as (_ & _ & _ & H).
  rewrite NewController_world_ok in H.
  destruct (H ctl_ok None eq_refl) as (H1 & H2 & _).
  by repeat split.
Defined.

Lemma registerCRD_waits_witness :
  value (registerCRD world_ok ctl_ok process_ok) = None /\
  exists crdef,
    ClusterScanCRD_answer world_ok = Ok crdef /\
    BatchWait_answer world_ok [crdef] = None /\
    calls (registerCRD world_ok ctl_ok process_ok) =
      [crd_NewFactoryFromClientGetter (xcs ctl_ok); scan_ClusterScanCRD;
       factory_BatchCreateCRDs [crdef]; factory_BatchWait].
Proof.
  assert (value (registerCRD world_ok ctl_ok process_ok) = None) as H by reflexivity.
  split; [exact H|].
  exact (proj1 (proj2 (registerCRD_waits world_ok ctl_ok process_ok)) H).
Defined.

Example registerCRD_no_definition :
  registerCRD world_no_crd ctl_ok process_ok =
  (Some "schema of ClusterScan: not generated", process_ok,
   [crd_NewFactoryFromClientGetter (Some {| xcs_cfg := a_config |}); scan_ClusterScanCRD]).
Proof. reflexivity. Qed.
